(** * servicepytan.auth: credential resolution and token fetching

    A shallow embedding of [servicepytan/auth.py].  Python dictionaries are
    finite maps over strings, the interpreter's side effects (standard
    output, [os.environ], the requests that leave the process) are threaded
    through an explicit process state, and exceptions are an outcome of
    every effectful call. *)

From Stdlib Require Import ZArith Ascii.
From stdpp Require Import base option list strings pretty gmap fin_maps.

Set Warnings "-register-all".

Open Scope string_scope.
Open Scope Z_scope.

(** ** Python values

    Arguments of [servicepytan_connect] are annotated [str] with default
    [None]; they are modelled as [option string].  What ends up inside a
    config object may also come out of a JSON document, so config values
    range over everything [json.load] can build. *)

Inductive value : Type :=
  | VNone
  | VBool (b : bool)
  | VInt (n : Z)
  | VFloat (repr : string)   (* a float, named by its [repr] *)
  | VStr (s : string)
  | VList (l : list value)
  | VDict (d : gmap string value).

(** A Python dict with string keys. *)
Abbreviation dict := (gmap string value).

(** Argument passing: [None] stays [None], a [str] stays that [str]. *)
Definition of_arg (a : option string) : value :=
  match a with
  | None => VNone
  | Some s => VStr s
  end.

(** Truth value of an optional string ([if a:], [not a]). *)
Definition truthy (a : option string) : bool :=
  match a with
  | None => false
  | Some s => negb (String.eqb s "")
  end.

(** ** ApiEnvironment

    [PRODUCTION = "production",] carries a trailing comma; [StrEnum] passes
    the one-element tuple to [str], so the member still is the string
    ["production"]. *)

Module ApiEnvironment.
Definition PRODUCTION : string := "production".
Definition INTEGRATION : string := "integration".
End ApiEnvironment.

(** [env == ApiEnvironment.PRODUCTION]: only a string can be equal to a
    [StrEnum] member. *)
Definition is_production (env : value) : bool :=
  match env with
  | VStr s => String.eqb s ApiEnvironment.PRODUCTION
  | _ => false
  end.

Definition get_auth_root_url (env : value) : string :=
  if is_production env
  then "https://auth.servicetitan.io"
  else "https://auth-integration.servicetitan.io".

Definition get_api_root_url (env : value) : string :=
  if is_production env
  then "https://api.servicetitan.io"
  else "https://api-integration.servicetitan.io".

Definition AUTH_VARIABLES : list string :=
  [ "SERVICETITAN_APP_KEY";
    "SERVICETITAN_TENANT_ID";
    "SERVICETITAN_CLIENT_ID";
    "SERVICETITAN_CLIENT_SECRET";
    "SERVICETITAN_APP_ID";
    "SERVICETITAN_TIMEZONE";
    "SERVICETITAN_API_ENVIRONMENT" ].

(** ** The process and its effects *)

(** What [requests.request] is called with. *)
Record request := mk_request {
  method : string;
  url : string;
  data : string;
  headers : list (string * string);
  params : list (string * string)
}.

(** The two attributes of [requests.Response] the module reads. *)
Record response := mk_response {
  status_code : Z;
  text : string
}.

(** A running interpreter, seen from this module.  [fs], [net] and [dotenv]
    describe the surroundings and never change: the content of each
    readable file, the answer of the network to a request ([None] when the
    transport fails), and the variables defined by the [.env] file that
    python-dotenv finds (empty when there is none).  [environ] is
    [os.environ], [stdout] collects the printed lines, and [sent] the
    requests issued so far, oldest first. *)
Record process := mk_process {
  fs : string -> option string;
  net : request -> option response;
  dotenv : gmap string string;
  environ : gmap string string;
  stdout : list string;
  sent : list request
}.

Inductive exn : Type :=
  | OSError (path : string)
  | JSONDecodeError (doc : string)
  | AttributeError (attr : string)
  | KeyError (key : string)
  | TypeError
  | HTTPError (status : Z)
  | RequestException.

Inductive outcome (A : Type) : Type :=
  | Return (a : A)
  | Raise (e : exn).
Arguments Return {A} a.
Arguments Raise {A} e.

(** An effectful computation: runs in a process, returns or raises, and
    leaves the process changed either way. *)
Definition M (A : Type) : Type := process -> outcome A * process.

Definition ret {A} (a : A) : M A := fun p => (Return a, p).

Definition raise {A} (e : exn) : M A := fun p => (Raise e, p).

Definition bind {A B} (c : M A) (k : A -> M B) : M B :=
  fun p =>
    match c p with
    | (Return a, p') => k a p'
    | (Raise e, p') => (Raise e, p')
    end.

Notation "'let*' x ':=' c 'in' k" := (bind c (fun x => k))
  (at level 10, x name, c at level 100, k at level 200).
Notation "c ';;' k" := (bind c (fun _ => k))
  (at level 100, k at level 200, right associativity).

(** [for x in xs: acc = body(x, acc)], stopping at the first exception. *)
Fixpoint for_each {X A} (xs : list X) (body : X -> A -> M A) (acc : A) : M A :=
  match xs with
  | [] => ret acc
  | x :: xs' => let* acc' := body x acc in for_each xs' body acc'
  end.

(** [print(line)] *)
Definition print (line : string) : M unit :=
  fun p => (Return tt,
            mk_process (fs p) (net p) (dotenv p) (environ p)
                       (stdout p ++ [line]) (sent p)).

(** [open(path)] followed by reading the file; a path that cannot be
    opened raises. *)
Definition open_read (path : string) : M string :=
  fun p =>
    match fs p path with
    | Some content => (Return content, p)
    | None => (Raise (OSError path), p)
    end.

(** [os.environ.get(var)] *)
Definition os_environ_get (var : string) : M (option string) :=
  fun p => (Return (environ p !! var), p).

(** [load_dotenv()] with its default [override=False]: a variable of the
    [.env] file is set unless the environment already has it. *)
Definition load_dotenv : M unit :=
  fun p => (Return tt,
            mk_process (fs p) (net p) (dotenv p) (environ p ∪ dotenv p)
                       (stdout p) (sent p)).

(** [requests.request(method, url, data=, headers=, params=)] *)
Definition requests_request (method url data : string)
    (headers params : list (string * string)) : M response :=
  fun p =>
    let req := mk_request method url data headers params in
    let p' := mk_process (fs p) (net p) (dotenv p) (environ p)
                         (stdout p) (sent p ++ [req]) in
    match net p req with
    | Some r => (Return r, p')
    | None => (Raise RequestException, p')
    end.

Module codes.
(** [requests.codes.ok] *)
Definition ok : Z := 200.
End codes.

(** [Response.raise_for_status()]: client and server errors raise, every
    other status returns. *)
Definition raise_for_status (r : response) : M unit :=
  if (400 <=? status_code r) && (status_code r <? 600)
  then raise (HTTPError (status_code r))
  else ret tt.

(** [creds.get(key, dflt)]: only a dict has the method. *)
Definition get_method (creds : value) (key : string) (dflt : value) : M value :=
  match creds with
  | VDict d => ret (default dflt (d !! key))
  | _ => raise (AttributeError "get")
  end.

(** [obj[key]] with a string key. *)
Definition subscript (obj : value) (key : string) : M value :=
  match obj with
  | VDict d =>
      match d !! key with
      | Some v => ret v
      | None => raise (KeyError key)
      end
  | _ => raise TypeError
  end.

(** [conn[key]] on a dict. *)
Definition getitem (conn : dict) (key : string) : M value :=
  match conn !! key with
  | Some v => ret v
  | None => raise (KeyError key)
  end.

(** The arguments of [servicepytan_connect]. *)
Record connect_args := mk_connect_args {
  api_environment : option string;
  app_key : option string;
  tenant_id : option string;
  client_id : option string;
  client_secret : option string;
  app_id : option string;
  timezone : option string;
  config_file : option string
}.

(** A call that passes [api_environment] alone: every other parameter
    takes its default. *)
Definition default_args (api_environment : option string) : connect_args :=
  mk_connect_args api_environment None None None None None (Some "UTC") None.

(** The dict literal [servicepytan_connect] starts from. *)
Definition auth_config_object (a : connect_args) : dict :=
  list_to_map
    [ ("SERVICETITAN_APP_KEY", of_arg (app_key a));
      ("SERVICETITAN_TENANT_ID", of_arg (tenant_id a));
      ("SERVICETITAN_CLIENT_ID", of_arg (client_id a));
      ("SERVICETITAN_CLIENT_SECRET", of_arg (client_secret a));
      ("SERVICETITAN_APP_ID", of_arg (app_id a));
      ("SERVICETITAN_TIMEZONE", of_arg (timezone a));
      ("SERVICETITAN_API_ENVIRONMENT", of_arg (api_environment a));
      ("auth_root", VStr (get_auth_root_url (of_arg (api_environment a))));
      ("api_root", VStr (get_api_root_url (of_arg (api_environment a)))) ].

(** The advisory printed for a variable the environment does not give. *)
Definition advisory (var : string) : string :=
  "Environment variable " ++ var ++
  " not found or provided in function. Defualting to empty string.".

Section Auth.

(** [json.loads]: the document's value, [None] for what the decoder
    rejects. *)
Variable json_loads : string -> option value.

(** [str()] of a list or a dict. *)
Variable str_container : value -> string.

(** [json.load(f)] on the content read from [f]. *)
Definition json_load (content : string) : M value :=
  match json_loads content with
  | Some v => ret v
  | None => raise (JSONDecodeError content)
  end.

(** [{v}] inside an f-string. *)
Definition fstr (v : value) : string :=
  match v with
  | VNone => "None"
  | VBool true => "True"
  | VBool false => "False"
  | VInt n => pretty n
  | VFloat r => r
  | VStr s => s
  | VList _ | VDict _ => str_container v
  end.

Definition servicepytan_connect (a : connect_args) : M dict :=
  if truthy (config_file a) then
    print "Setting auth config from file..." ;;
    let* f := open_read (default "" (config_file a)) in
    let* creds := json_load f in
    for_each AUTH_VARIABLES
      (fun var cfg =>
         let* v := get_method creds var (VStr "") in
         ret (<[var := v]> cfg))
      (auth_config_object a)
  else if negb (truthy (api_environment a)) || negb (truthy (app_key a))
          || negb (truthy (tenant_id a)) || negb (truthy (client_id a))
          || negb (truthy (client_secret a)) then
    load_dotenv ;;
    print "Auth config not provided, loading from environment variables..." ;;
    for_each AUTH_VARIABLES
      (fun var cfg =>
         let* auth_var := os_environ_get var in
         if truthy auth_var then
           ret (<[var := of_arg auth_var]> cfg)
         else
           print (advisory var) ;;
           ret (<[var := VStr ""]> cfg))
      (auth_config_object a)
  else
    ret (auth_config_object a).

Definition request_auth_token (auth_root_url client_id client_secret : value)
    : M value :=
  let url := fstr auth_root_url ++ "/connect/token" in
  let querystring := [("Content-Type", "application/x-www-form-urlencoded")] in
  let payload := "grant_type=client_credentials&client_id=" ++ fstr client_id
                 ++ "&client_secret=" ++ fstr client_secret in
  let headers := [("Content-Type", "application/x-www-form-urlencoded")] in
  let* response := requests_request "POST" url payload headers querystring in
  (if negb (status_code response =? codes.ok) then
     print ("Error fetching auth token: " ++ text response) ;;
     raise_for_status response
   else ret tt) ;;
  json_load (text response).

Definition get_auth_token (conn : dict) : M value :=
  let* client_id := getitem conn "SERVICETITAN_CLIENT_ID" in
  let* client_secret := getitem conn "SERVICETITAN_CLIENT_SECRET" in
  let* auth_root := getitem conn "auth_root" in
  let* token := request_auth_token auth_root client_id client_secret in
  subscript token "access_token".

Definition get_app_key (conn : dict) : M value :=
  getitem conn "SERVICETITAN_APP_KEY".

Definition get_tenant_id (conn : dict) : M value :=
  getitem conn "SERVICETITAN_TENANT_ID".

Definition get_auth_headers (conn : dict) : M dict :=
  let* authorization := get_auth_token conn in
  let* st_app_key := get_app_key conn in
  ret (list_to_map [("Authorization", authorization);
                    ("ST-App-Key", st_app_key)]).

End Auth.

(** ** Vocabulary of the statements *)

(** The nine keys of a Connection Config. *)
Definition CONFIG_KEYS : list string :=
  AUTH_VARIABLES ++ ["auth_root"; "api_root"].

(** The argument that initialises a field of the config object. *)
Definition explicit_argument (a : connect_args) (k : string) : option string :=
  if String.eqb k "SERVICETITAN_APP_KEY" then app_key a
  else if String.eqb k "SERVICETITAN_TENANT_ID" then tenant_id a
  else if String.eqb k "SERVICETITAN_CLIENT_ID" then client_id a
  else if String.eqb k "SERVICETITAN_CLIENT_SECRET" then client_secret a
  else if String.eqb k "SERVICETITAN_APP_ID" then app_id a
  else if String.eqb k "SERVICETITAN_TIMEZONE" then timezone a
  else if String.eqb k "SERVICETITAN_API_ENVIRONMENT" then api_environment a
  else None.

(** All five core fields are passed and non-empty. *)
Definition core_complete (a : connect_args) : bool :=
  truthy (api_environment a) && truthy (app_key a) && truthy (tenant_id a)
  && truthy (client_id a) && truthy (client_secret a).

(** The three branches of the resolver. *)
Definition file_branch (a : connect_args) : bool := truthy (config_file a).

Definition environment_branch (a : connect_args) : bool :=
  negb (truthy (config_file a)) && negb (core_complete a).

Definition explicit_branch (a : connect_args) : bool :=
  negb (truthy (config_file a)) && core_complete a.

(** The environment the resolver reads, once [load_dotenv] has run. *)
Definition loaded_environ (p : process) : gmap string string :=
  environ p ∪ dotenv p.

(** What the environment gives for a variable, empty when unset. *)
Definition environ_or_empty (env : gmap string string) (var : string) : value :=
  VStr (default "" (env !! var)).

(** What a parsed config file gives for a variable, empty when missing. *)
Definition file_or_empty (creds : dict) (var : string) : value :=
  default (VStr "") (creds !! var).



(** The request a token fetch is expected to issue. *)
Definition token_request (auth_root cid secret : string) : request :=
  mk_request "POST"
    (auth_root ++ "/connect/token")
    ("grant_type=client_credentials&client_id=" ++ cid
       ++ "&client_secret=" ++ secret)
    [("Content-Type", "application/x-www-form-urlencoded")]
    [("Content-Type", "application/x-www-form-urlencoded")].

(** *** The form encoding

    What a body of type [application/x-www-form-urlencoded] is, as
    [urllib.parse.urlencode] produces it: letters, digits and [_.-~] stand
    for themselves, a space becomes [+], every other byte becomes [%XX],
    and the fields are written [name=value], joined by [&]. *)

Definition unreserved (c : ascii) : bool :=
  let n := nat_of_ascii c in
  ((48 <=? n) && (n <=? 57) || (65 <=? n) && (n <=? 90)
   || (97 <=? n) && (n <=? 122)
   || (n =? 45) || (n =? 46) || (n =? 95) || (n =? 126))%nat.

Definition hex_digit (n : nat) : ascii :=
  ascii_of_nat (if (n <? 10)%nat then 48 + n else 55 + n)%nat.

Fixpoint quote_plus (s : string) : string :=
  match s with
  | EmptyString => EmptyString
  | String c rest =>
      if unreserved c then String c (quote_plus rest)
      else if (nat_of_ascii c =? 32)%nat then String "+"%char (quote_plus rest)
      else String "%"%char
             (String (hex_digit (nat_of_ascii c / 16))
                (String (hex_digit (nat_of_ascii c mod 16))
                   (quote_plus rest)))
  end.

Fixpoint urlencode (fields : list (string * string)) : string :=
  match fields with
  | [] => ""
  | [(name, v)] => quote_plus name ++ "=" ++ quote_plus v
  | (name, v) :: rest =>
      quote_plus name ++ "=" ++ quote_plus v ++ "&" ++ urlencode rest
  end.

(** The three fields of a client-credentials grant. *)
Definition grant_fields (cid secret : string) : list (string * string) :=
  [ ("grant_type", "client_credentials");
    ("client_id", cid);
    ("client_secret", secret) ].

(** Every character stands for itself in the form encoding. *)
Fixpoint all_unreserved (s : string) : bool :=
  match s with
  | EmptyString => true
  | String c rest => unreserved c && all_unreserved rest
  end.

(** The process once [request_auth_token] has issued its request. *)
Definition after_request (p : process) (req : request) : process :=
  mk_process (fs p) (net p) (dotenv p) (environ p) (stdout p) (sent p ++ [req]).

(** The process once it has also printed its diagnostic. *)
Definition after_diagnostic (p : process) (req : request) (body : string)
    : process :=
  mk_process (fs p) (net p) (dotenv p) (environ p)
    (stdout p ++ ["Error fetching auth token: " ++ body]) (sent p ++ [req]).

(** What [get_auth_headers] makes of a response body once the status
    check is over: [decoded] is the result of [json.loads] on the body
    [doc], and [q] the process at that point. *)
Definition assemble_headers (conn : dict) (decoded : option value)
    (doc : string) (q : process) : outcome dict * process :=
  match decoded with
  | None => (Raise (JSONDecodeError doc), q)
  | Some (VDict body) =>
      match body !! "access_token" with
      | None => (Raise (KeyError "access_token"), q)
      | Some token =>
          match conn !! "SERVICETITAN_APP_KEY" with
          | None => (Raise (KeyError "SERVICETITAN_APP_KEY"), q)
          | Some key =>
              (Return {[ "Authorization" := token; "ST-App-Key" := key ]}, q)
          end
      end
  | Some _ => (Raise TypeError, q)
  end.

(** ** Concrete surroundings, used to run the code *)

Definition dq : string := String (ascii_of_nat 34) "".

(** [{"SERVICETITAN_APP_KEY": "X"}] *)
Definition app_key_only_json : string :=
  "{" ++ dq ++ "SERVICETITAN_APP_KEY" ++ dq ++ ": " ++ dq ++ "X" ++ dq ++ "}".

(** [{"SERVICETITAN_API_ENVIRONMENT": "production"}] *)
Definition production_json : string :=
  "{" ++ dq ++ "SERVICETITAN_API_ENVIRONMENT" ++ dq ++ ": "
      ++ dq ++ "production" ++ dq ++ "}".

(** [{"access_token": "abc123"}] *)
Definition token_json : string :=
  "{" ++ dq ++ "access_token" ++ dq ++ ": " ++ dq ++ "abc123" ++ dq ++ "}".

(** [{"token_type": "Bearer"}] *)
Definition no_token_json : string :=
  "{" ++ dq ++ "token_type" ++ dq ++ ": " ++ dq ++ "Bearer" ++ dq ++ "}".

(** [json.loads] on the four documents above; the examples decode nothing
    else. *)
Definition demo_json_loads (doc : string) : option value :=
  if String.eqb doc app_key_only_json then
    Some (VDict {[ "SERVICETITAN_APP_KEY" := VStr "X" ]})
  else if String.eqb doc production_json then
    Some (VDict {[ "SERVICETITAN_API_ENVIRONMENT" := VStr "production" ]})
  else if String.eqb doc token_json then
    Some (VDict {[ "access_token" := VStr "abc123" ]})
  else if String.eqb doc no_token_json then
    Some (VDict {[ "token_type" := VStr "Bearer" ]})
  else None.

Definition demo_str_container (v : value) : string := "<container>".

(** A process with two config files, no [.env] file, an empty environment
    and a token endpoint that answers every request with [r]. *)
Definition demo_process (r : response) : process :=
  mk_process
    (fun path =>
       if String.eqb path "app_key_only.json" then Some app_key_only_json
       else if String.eqb path "production.json" then Some production_json
       else None)
    (fun _ => Some r)
    ∅ ∅ [] [].

Definition quiet_process : process := demo_process (mk_response 200 token_json).

(** The token endpoint answers 300 Multiple Choices with a JSON body. *)
Definition redirect_process : process :=
  demo_process (mk_response 300 token_json).

(** The token endpoint answers 401 Unauthorized. *)
Definition denied_process : process :=
  demo_process (mk_response 401 "invalid_client").

(** The token endpoint answers 200 with a body that has no token. *)
Definition no_token_process : process :=
  demo_process (mk_response 200 no_token_json).

(** The same process with two variables in its environment. *)
Definition env_process : process :=
  mk_process (fs quiet_process) (net quiet_process) ∅
    (<["SERVICETITAN_APP_KEY" := "key-from-env"]>
       (<["SERVICETITAN_TIMEZONE" := ""]> ∅))
    [] [].

(** [servicepytan_connect("production", config_file="app_key_only.json",
    app_key="ignored", tenant_id="42")] *)
Definition file_call : connect_args :=
  mk_connect_args (Some "production") (Some "ignored") (Some "42") None None
                  None (Some "UTC") (Some "app_key_only.json").

(** [servicepytan_connect("integration", config_file="production.json")] *)
Definition mismatch_call : connect_args :=
  mk_connect_args (Some "integration") None None None None
                  None (Some "UTC") (Some "production.json").

(** [servicepytan_connect("production", "key", "42", "cid", "secret")] *)
Definition explicit_call : connect_args :=
  mk_connect_args (Some "production") (Some "key") (Some "42") (Some "cid")
                  (Some "secret") None (Some "UTC") None.

(** [servicepytan_connect("production", app_key="key")] *)
Definition partial_call : connect_args :=
  mk_connect_args (Some "production") (Some "key") None None None
                  None (Some "UTC") None.

(** A resolved config to fetch a token with. *)
Definition demo_conn : dict :=
  list_to_map
    [ ("SERVICETITAN_APP_KEY", VStr "key");
      ("SERVICETITAN_TENANT_ID", VStr "42");
      ("SERVICETITAN_CLIENT_ID", VStr "cid");
      ("SERVICETITAN_CLIENT_SECRET", VStr "secret");
      ("SERVICETITAN_APP_ID", VNone);
      ("SERVICETITAN_TIMEZONE", VStr "UTC");
      ("SERVICETITAN_API_ENVIRONMENT", VStr "production");
      ("auth_root", VStr "https://auth.servicetitan.io");
      ("api_root", VStr "https://api.servicetitan.io") ].

(** *** More documents, files and calls *)

(** [[1, 2]] *)
Definition list_json : string := "[1, 2]".

(** A document that is not JSON. *)
Definition broken_json : string := "{not json".

(** [{"SERVICETITAN_TENANT_ID": 42, "SERVICETITAN_APP_KEY": null,
      "note": "x"}] *)
Definition typed_json : string :=
  "{" ++ dq ++ "SERVICETITAN_TENANT_ID" ++ dq ++ ": 42, "
      ++ dq ++ "SERVICETITAN_APP_KEY" ++ dq ++ ": null, "
      ++ dq ++ "note" ++ dq ++ ": " ++ dq ++ "x" ++ dq ++ "}".

(** [{"access_token": null}] *)
Definition null_token_json : string :=
  "{" ++ dq ++ "access_token" ++ dq ++ ": null}".

(** [json.loads] on these documents and on the earlier ones. *)
Definition more_json_loads (doc : string) : option value :=
  if String.eqb doc list_json then Some (VList [VInt 1; VInt 2])
  else if String.eqb doc typed_json then
    Some (VDict (<["SERVICETITAN_TENANT_ID" := VInt 42]>
                   (<["SERVICETITAN_APP_KEY" := VNone]>
                      {[ "note" := VStr "x" ]})))
  else if String.eqb doc null_token_json then
    Some (VDict {[ "access_token" := VNone ]})
  else demo_json_loads doc.

(** A process with three more files, a [.env] file that defines two
    variables and an environment that defines one of them; the token
    endpoint answers every request with [r]. *)
Definition files_process (r : response) : process :=
  mk_process
    (fun path =>
       if String.eqb path "list.json" then Some list_json
       else if String.eqb path "broken.json" then Some broken_json
       else if String.eqb path "typed.json" then Some typed_json
       else fs quiet_process path)
    (fun _ => Some r)
    (<["SERVICETITAN_APP_KEY" := "key-from-dotenv"]>
       (<["SERVICETITAN_CLIENT_ID" := "cid-from-dotenv"]> ∅))
    (<["SERVICETITAN_APP_KEY" := "key-from-env"]> ∅)
    [] [].

(** [servicepytan_connect("integration", config_file=path)] *)
Definition call_with_file (path : string) : connect_args :=
  mk_connect_args (Some "integration") None None None None
                  None (Some "UTC") (Some path).

(** The token endpoint answers 200 with [{"access_token": null}]. *)
Definition busy_process : process :=
  files_process (mk_response 200 null_token_json).

(** [servicepytan_connect("production", config_file="app_key_only.json")] *)
Definition bare_file_call : connect_args :=
  mk_connect_args (Some "production") None None None None
                  None None (Some "app_key_only.json").

(** A config without an app key. *)
Definition keyless_conn : dict :=
  list_to_map
    [ ("SERVICETITAN_CLIENT_ID", VStr "cid");
      ("SERVICETITAN_CLIENT_SECRET", VStr "secret");
      ("auth_root", VStr "https://auth.servicetitan.io") ].

(** A config without a client secret. *)
Definition secretless_conn : dict :=
  list_to_map
    [ ("SERVICETITAN_APP_KEY", VStr "key");
      ("SERVICETITAN_CLIENT_ID", VStr "cid");
      ("auth_root", VStr "https://auth.servicetitan.io") ].

(** ** Generic facts on the loops and on config objects *)

(** Membership in a list of literal keys, decided by evaluation. *)
Ltac in_keys := apply (bool_decide_unpack _); vm_compute; exact I.

Lemma returned_inv {A} (x y : A) (p q : process) :
  (Return x, p) = (Return y, q) -> x = y /\ p = q.
Proof. intros H. split; congruence. Qed.

Lemma truthy_false_default (a : option string) :
  truthy a = false -> default "" a = "".
Proof.
  destruct a as [s|]; simpl; [|reflexivity].
  destruct (String.eqb_spec s ""); [auto|discriminate].
Qed.

Lemma truthy_of_arg (a : option string) :
  truthy a = true -> of_arg a = VStr (default "" a).
Proof. destruct a; simpl; [reflexivity|discriminate]. Qed.

(** Writing [f k] at every key of a list, one after the other. *)
Lemma lookup_foldl_insert (f : string -> value) (vars : list string)
    (m : dict) (k : string) :
  foldl (fun m v => <[v := f v]> m) m vars !! k
  = if decide (k ∈ vars) then Some (f k) else m !! k.
Proof.
  revert m. induction vars as [|v vars IH]; intros m; cbn [foldl].
  - rewrite decide_False by apply not_elem_of_nil. reflexivity.
  - rewrite IH. destruct (decide (k ∈ vars)) as [Hin|Hnin].
    + rewrite decide_True by (apply elem_of_cons; right; exact Hin).
      reflexivity.
    + destruct (decide (k = v)) as [->|Hne].
      * rewrite decide_True by (apply elem_of_cons; left; reflexivity).
        apply lookup_insert_eq.
      * rewrite decide_False by (rewrite elem_of_cons; tauto).
        apply lookup_insert_ne. congruence.
Qed.

(** The loop of the config-file branch over a parsed JSON object. *)
Lemma for_each_from_file (creds : dict) (vars : list string) (cfg : dict)
    (p : process) :
  for_each vars
    (fun var cfg => let* v := get_method (VDict creds) var (VStr "") in
                    ret (<[var := v]> cfg)) cfg p
  = (Return (foldl (fun m v => <[v := file_or_empty creds v]> m) cfg vars), p).
Proof.
  revert cfg. induction vars as [|v vars IH]; intros cfg; simpl; [reflexivity|].
  unfold bind at 1. simpl. apply IH.
Qed.

(** The loop of the environment branch: the config gets what the
    environment holds, and one advisory is printed per variable that is
    unset or empty. *)
Lemma for_each_from_environ (vars : list string) (cfg : dict) (p : process) :
  for_each vars
    (fun var cfg =>
       let* auth_var := os_environ_get var in
       if truthy auth_var then ret (<[var := of_arg auth_var]> cfg)
       else print (advisory var) ;; ret (<[var := VStr ""]> cfg)) cfg p
  = (Return (foldl (fun m v => <[v := environ_or_empty (environ p) v]> m) cfg vars),
     mk_process (fs p) (net p) (dotenv p) (environ p)
       (stdout p ++
          (advisory <$> filter (fun v => truthy (environ p !! v) = false) vars))
       (sent p)).
Proof.
  unfold bind, os_environ_get, ret, print.
  revert cfg p. induction vars as [|v vars IH]; intros cfg p;
    cbn [for_each foldl].
  - destruct p; simpl. rewrite app_nil_r. reflexivity.
  - unfold bind at 1. cbn beta iota.
    destruct (truthy (environ p !! v)) eqn:Ht.
    + rewrite IH. rewrite filter_cons_False by congruence.
      rewrite (truthy_of_arg _ Ht). reflexivity.
    + rewrite IH. cbn [fs net dotenv environ stdout sent].
      rewrite filter_cons_True by assumption.
      rewrite fmap_cons, <- app_assoc. cbn [app].
      replace (environ_or_empty (environ p) v) with (VStr "")
        by (unfold environ_or_empty; rewrite (truthy_false_default _ Ht);
            reflexivity).
      reflexivity.
Qed.

(** The guard of the [elif] is the negation of [core_complete]. *)
Lemma elif_guard (a : connect_args) :
  (negb (truthy (api_environment a)) || negb (truthy (app_key a))
   || negb (truthy (tenant_id a)) || negb (truthy (client_id a))
   || negb (truthy (client_secret a)))%bool = negb (core_complete a).
Proof.
  unfold core_complete.
  destruct (truthy (api_environment a)), (truthy (app_key a)),
    (truthy (tenant_id a)), (truthy (client_id a)),
    (truthy (client_secret a)); reflexivity.
Qed.

Lemma auth_config_object_var (a : connect_args) (k : string) :
  k ∈ AUTH_VARIABLES ->
  auth_config_object a !! k = Some (of_arg (explicit_argument a k)).
Proof.
  unfold AUTH_VARIABLES. intros Hk.
  repeat (apply elem_of_cons in Hk; destruct Hk as [->|Hk]; [reflexivity|]).
  apply not_elem_of_nil in Hk. contradiction.
Qed.

Lemma auth_config_object_auth_root (a : connect_args) :
  auth_config_object a !! "auth_root"
  = Some (VStr (get_auth_root_url (of_arg (api_environment a)))).
Proof. reflexivity. Qed.

Lemma auth_config_object_api_root (a : connect_args) :
  auth_config_object a !! "api_root"
  = Some (VStr (get_api_root_url (of_arg (api_environment a)))).
Proof. reflexivity. Qed.

Lemma url_keys_not_variables :
  ("auth_root" ∉ AUTH_VARIABLES) /\ ("api_root" ∉ AUTH_VARIABLES).
Proof. split; apply (bool_decide_unpack _); vm_compute; exact I. Qed.

Section Properties.

Variable json_loads : string -> option value.
Variable str_container : value -> string.

(** *** The three branches of the resolver, run to the end *)

Lemma connect_explicit (a : connect_args) (p : process) :
  explicit_branch a = true ->
  servicepytan_connect json_loads a p = (Return (auth_config_object a), p).
Proof.
  unfold explicit_branch. intros [Hf Hc]%andb_prop.
  apply negb_true_iff in Hf.
  unfold servicepytan_connect. rewrite Hf, elif_guard, Hc. reflexivity.
Qed.

Lemma connect_environment (a : connect_args) (p : process) :
  environment_branch a = true ->
  servicepytan_connect json_loads a p
  = (Return (foldl (fun m v => <[v := environ_or_empty (loaded_environ p) v]> m)
               (auth_config_object a) AUTH_VARIABLES),
     mk_process (fs p) (net p) (dotenv p) (loaded_environ p)
       (stdout p
          ++ "Auth config not provided, loading from environment variables..."
          :: (advisory <$> filter (fun v => truthy (loaded_environ p !! v) = false)
                             AUTH_VARIABLES))
       (sent p)).
Proof.
  unfold environment_branch. intros [Hf Hc]%andb_prop.
  apply negb_true_iff in Hf.
  unfold servicepytan_connect. rewrite Hf, elif_guard, Hc.
  cbn [negb]. unfold bind at 1, load_dotenv at 1. cbn beta iota.
  unfold bind at 1, print at 1. cbn beta iota.
  rewrite for_each_from_environ. cbn [fs net dotenv environ stdout sent].
  rewrite <- app_assoc. reflexivity.
Qed.

Lemma connect_file (a : connect_args) (p : process) :
  file_branch a = true ->
  let path := default "" (config_file a) in
  let p' := mk_process (fs p) (net p) (dotenv p) (environ p)
              (stdout p ++ ["Setting auth config from file..."]) (sent p) in
  servicepytan_connect json_loads a p
  = match fs p path with
    | None => (Raise (OSError path), p')
    | Some content =>
        match json_loads content with
        | None => (Raise (JSONDecodeError content), p')
        | Some (VDict creds) =>
            (Return (foldl (fun m v => <[v := file_or_empty creds v]> m)
                       (auth_config_object a) AUTH_VARIABLES), p')
        | Some _ => (Raise (AttributeError "get"), p')
        end
    end.
Proof.
  unfold file_branch. intros Hf. lazy zeta.
  unfold servicepytan_connect. rewrite Hf.
  unfold bind at 1, print at 1. cbn beta iota.
  unfold bind at 1, open_read at 1. cbn [fs].
  destruct (fs p (default "" (config_file a))) as [content|]; [|reflexivity].
  unfold bind at 1, json_load at 1.
  destruct (json_loads content) as [creds|]; [|reflexivity].
  unfold ret at 1. cbn beta iota.
  destruct creds as [| | | | | |creds]; [reflexivity..|].
  apply for_each_from_file.
Qed.

(** *** Lookups in the resolved config of the two loading branches *)

Lemma lookup_filled_var (f : string -> value) (cfg : dict) (k : string) :
  k ∈ AUTH_VARIABLES ->
  foldl (fun m v => <[v := f v]> m) cfg AUTH_VARIABLES !! k = Some (f k).
Proof. intros Hk. rewrite lookup_foldl_insert, decide_True by exact Hk. reflexivity. Qed.

Lemma lookup_filled_auth_root (f : string -> value) (a : connect_args) :
  foldl (fun m v => <[v := f v]> m) (auth_config_object a) AUTH_VARIABLES
    !! "auth_root"
  = Some (VStr (get_auth_root_url (of_arg (api_environment a)))).
Proof.
  rewrite lookup_foldl_insert, decide_False by apply url_keys_not_variables.
  apply auth_config_object_auth_root.
Qed.

Lemma lookup_filled_api_root (f : string -> value) (a : connect_args) :
  foldl (fun m v => <[v := f v]> m) (auth_config_object a) AUTH_VARIABLES
    !! "api_root"
  = Some (VStr (get_api_root_url (of_arg (api_environment a)))).
Proof.
  rewrite lookup_foldl_insert, decide_False by apply url_keys_not_variables.
  apply auth_config_object_api_root.
Qed.

(** ** The config resolver *)

(** C5: the auth root and the API root are functions of the environment
    selector alone: the string ["production"] selects the production pair
    of URLs, every other string, the empty one included, the integration
    pair. *)
Theorem url_derivation (env : string) :
  get_auth_root_url (VStr env)
  = (if decide (env = "production") then "https://auth.servicetitan.io"
     else "https://auth-integration.servicetitan.io")
  /\ get_api_root_url (VStr env)
  = (if decide (env = "production") then "https://api.servicetitan.io"
     else "https://api-integration.servicetitan.io")
  /\ get_auth_root_url (VStr "") = "https://auth-integration.servicetitan.io"
  /\ get_api_root_url (VStr "") = "https://api-integration.servicetitan.io".
Proof.
  unfold get_auth_root_url, get_api_root_url, is_production,
    ApiEnvironment.PRODUCTION.
  destruct (String.eqb_spec env "production") as [->|Hne].
  - repeat split.
  - rewrite !decide_False by assumption. repeat split.
Qed.

(** C2: with no config file and the five core fields non-empty, the
    resolved config holds the passed values as they are; the process is
    left as it was (nothing printed, [os.environ] not reloaded), and the
    result is the same in every process, whatever its files and its
    environment hold. *)
Theorem explicit_args_verbatim (a : connect_args) (p : process) :
  truthy (config_file a) = false ->
  truthy (api_environment a) = true ->
  truthy (app_key a) = true ->
  truthy (tenant_id a) = true ->
  truthy (client_id a) = true ->
  truthy (client_secret a) = true ->
  exists cfg,
    servicepytan_connect json_loads a p = (Return cfg, p) /\
    cfg !! "SERVICETITAN_API_ENVIRONMENT" = Some (of_arg (api_environment a)) /\
    cfg !! "SERVICETITAN_APP_KEY" = Some (of_arg (app_key a)) /\
    cfg !! "SERVICETITAN_TENANT_ID" = Some (of_arg (tenant_id a)) /\
    cfg !! "SERVICETITAN_CLIENT_ID" = Some (of_arg (client_id a)) /\
    cfg !! "SERVICETITAN_CLIENT_SECRET" = Some (of_arg (client_secret a)) /\
    cfg !! "SERVICETITAN_APP_ID" = Some (of_arg (app_id a)) /\
    cfg !! "SERVICETITAN_TIMEZONE" = Some (of_arg (timezone a)) /\
    forall q : process,
      servicepytan_connect json_loads a q = (Return cfg, q).
Proof.
  intros Hf H1 H2 H3 H4 H5.
  assert (Hb : explicit_branch a = true).
  { unfold explicit_branch, core_complete. rewrite Hf, H1, H2, H3, H4, H5.
    reflexivity. }
  exists (auth_config_object a).
  split; [apply connect_explicit, Hb|].
  repeat (split; [reflexivity|]).
  intros q. apply connect_explicit, Hb.
Qed.

(** C9: in the config-file branch the two URL fields are computed from the
    [api_environment] argument; the file's SERVICETITAN_API_ENVIRONMENT
    only fills the field of that name. *)
Theorem file_branch_urls_follow_argument (a : connect_args) (p : process)
    (content : string) (creds : dict) :
  truthy (config_file a) = true ->
  fs p (default "" (config_file a)) = Some content ->
  json_loads content = Some (VDict creds) ->
  exists cfg p',
    servicepytan_connect json_loads a p = (Return cfg, p') /\
    cfg !! "auth_root"
      = Some (VStr (get_auth_root_url (of_arg (api_environment a)))) /\
    cfg !! "api_root"
      = Some (VStr (get_api_root_url (of_arg (api_environment a)))) /\
    cfg !! "SERVICETITAN_API_ENVIRONMENT"
      = Some (file_or_empty creds "SERVICETITAN_API_ENVIRONMENT").
Proof.
  intros Hf Hfs Hjson.
  pose proof (connect_file a p Hf) as Hrun. lazy zeta in Hrun.
  rewrite Hfs, Hjson in Hrun.
  eexists _, _. split; [exact Hrun|].
  split; [apply lookup_filled_auth_root|].
  split; [apply lookup_filled_api_root|].
  apply lookup_filled_var. in_keys.
Qed.

(** C1, as amended: a config file that holds SERVICETITAN_APP_KEY alone
    yields that app key and the empty string at the other six variables,
    whatever the explicit arguments are; the two URL fields are not empty,
    they are derived from the [api_environment] argument. *)
Theorem app_key_only_file (a : connect_args) (p : process)
    (content x : string) :
  truthy (config_file a) = true ->
  fs p (default "" (config_file a)) = Some content ->
  json_loads content = Some (VDict {[ "SERVICETITAN_APP_KEY" := VStr x ]}) ->
  exists cfg p',
    servicepytan_connect json_loads a p = (Return cfg, p') /\
    cfg !! "SERVICETITAN_APP_KEY" = Some (VStr x) /\
    (forall k, k ∈ AUTH_VARIABLES -> k <> "SERVICETITAN_APP_KEY" ->
               cfg !! k = Some (VStr "")) /\
    cfg !! "auth_root"
      = Some (VStr (get_auth_root_url (of_arg (api_environment a)))) /\
    cfg !! "api_root"
      = Some (VStr (get_api_root_url (of_arg (api_environment a)))).
Proof.
  intros Hf Hfs Hjson.
  pose proof (connect_file a p Hf) as Hrun. lazy zeta in Hrun.
  rewrite Hfs, Hjson in Hrun.
  eexists _, _. split; [exact Hrun|].
  split.
  { rewrite lookup_filled_var by in_keys.
    unfold file_or_empty. rewrite lookup_singleton_eq. reflexivity. }
  split.
  { intros k Hk Hne. rewrite lookup_filled_var by exact Hk.
    unfold file_or_empty. rewrite lookup_singleton_ne by congruence.
    reflexivity. }
  split; [apply lookup_filled_auth_root|apply lookup_filled_api_root].
Qed.


(** C4, as amended: with no config file and one of the five core fields
    missing or empty, the call returns; each of the seven variables is
    what the environment, [.env] file included, holds for it, the empty
    string when it holds nothing; one advisory line is printed for each
    variable that is unset or empty, in order, after the opening line.
    The two URL fields stay derived from the [api_environment] argument. *)
Theorem environment_fills_variables (a : connect_args) (p : process) :
  truthy (config_file a) = false ->
  truthy (api_environment a) = false \/ truthy (app_key a) = false \/
  truthy (tenant_id a) = false \/ truthy (client_id a) = false \/
  truthy (client_secret a) = false ->
  exists cfg p',
    servicepytan_connect json_loads a p = (Return cfg, p') /\
    (forall k, k ∈ AUTH_VARIABLES ->
       cfg !! k = Some (environ_or_empty (loaded_environ p) k)) /\
    stdout p'
      = (stdout p
          ++ "Auth config not provided, loading from environment variables..."
          :: (advisory <$> filter (fun v => truthy (loaded_environ p !! v) = false)
                             AUTH_VARIABLES))%list /\
    (forall k, k ∈ AUTH_VARIABLES -> loaded_environ p !! k = None ->
       cfg !! k = Some (VStr "") /\ advisory k ∈ stdout p') /\
    cfg !! "auth_root"
      = Some (VStr (get_auth_root_url (of_arg (api_environment a)))) /\
    cfg !! "api_root"
      = Some (VStr (get_api_root_url (of_arg (api_environment a)))).
Proof.
  intros Hf Hcore.
  assert (Hb : environment_branch a = true).
  { unfold environment_branch, core_complete. rewrite Hf.
    destruct Hcore as [H|[H|[H|[H|H]]]]; rewrite H;
      rewrite ?andb_false_r; reflexivity. }
  eexists _, _. split; [apply connect_environment, Hb|].
  cbn [stdout].
  split; [intros k Hk; apply lookup_filled_var, Hk|].
  split; [reflexivity|].
  split; [|split; [apply lookup_filled_auth_root|apply lookup_filled_api_root]].
  intros k Hk Hnone. split.
  - rewrite lookup_filled_var by exact Hk.
    unfold environ_or_empty. rewrite Hnone. reflexivity.
  - apply elem_of_app. right. apply elem_of_cons. right.
    apply list_elem_of_fmap. exists k. split; [reflexivity|].
    apply list_elem_of_filter. split; [rewrite Hnone; reflexivity|exact Hk].
Qed.

(** ** The token fetcher and the header assembler *)

(** [request_auth_token], path by path. *)
Lemma request_auth_token_run (auth_root cid secret : value) (p : process) :
  let req := token_request (fstr str_container auth_root)
               (fstr str_container cid) (fstr str_container secret) in
  request_auth_token json_loads str_container auth_root cid secret p
  = match net p req with
    | None => (Raise RequestException, after_request p req)
    | Some r =>
        if status_code r =? 200 then
          json_load json_loads (text r) (after_request p req)
        else if (400 <=? status_code r) && (status_code r <? 600) then
          (Raise (HTTPError (status_code r)), after_diagnostic p req (text r))
        else
          json_load json_loads (text r) (after_diagnostic p req (text r))
    end.
Proof.
  lazy zeta. unfold request_auth_token, token_request.
  unfold bind at 1, requests_request at 1. lazy zeta.
  destruct (net p _) as [r|]; [|reflexivity].
  unfold codes.ok. destruct (status_code r =? 200); cbn [negb].
  - reflexivity.
  - unfold bind at 1. unfold bind at 1, print at 1.
    cbn [fs net dotenv environ stdout sent]. unfold raise_for_status.
    destruct ((400 <=? status_code r) && (status_code r <? 600)); reflexivity.
Qed.

Lemma json_load_Some (content : string) (v : value) (p : process) :
  json_loads content = Some v -> json_load json_loads content p = (Return v, p).
Proof. intros H. unfold json_load. rewrite H. reflexivity. Qed.

(** [json_load] leaves the process as it is. *)
Lemma json_load_process (content : string) (p : process) :
  snd (json_load json_loads content p) = p.
Proof. unfold json_load. destruct (json_loads content); reflexivity. Qed.

(** A status in the client or server error range: the body is printed, an
    HTTP-status error is raised, and one request has been issued. *)
Lemma request_auth_token_http_error (auth_root cid secret : value)
    (p : process) (r : response) :
  let req := token_request (fstr str_container auth_root)
               (fstr str_container cid) (fstr str_container secret) in
  net p req = Some r ->
  400 <= status_code r < 600 ->
  request_auth_token json_loads str_container auth_root cid secret p
  = (Raise (HTTPError (status_code r)), after_diagnostic p req (text r)).
Proof.
  lazy zeta. intros Hnet Hstatus.
  pose proof (request_auth_token_run auth_root cid secret p) as Hrun.
  lazy zeta in Hrun. rewrite Hnet in Hrun. rewrite Hrun.
  replace (status_code r =? 200) with false by lia.
  replace ((400 <=? status_code r) && (status_code r <? 600)) with true
    by (symmetry; apply andb_true_intro; split; lia).
  reflexivity.
Qed.

(** A status that is neither 200 nor in the error range: the body is
    printed, and the function goes on to decode it; no HTTP-status error
    is raised. *)
Lemma request_auth_token_unraised (auth_root cid secret : value)
    (p : process) (r : response) :
  let req := token_request (fstr str_container auth_root)
               (fstr str_container cid) (fstr str_container secret) in
  net p req = Some r ->
  status_code r <> 200 ->
  status_code r < 400 \/ 600 <= status_code r ->
  request_auth_token json_loads str_container auth_root cid secret p
  = json_load json_loads (text r) (after_diagnostic p req (text r)).
Proof.
  lazy zeta. intros Hnet Hne Hstatus.
  pose proof (request_auth_token_run auth_root cid secret p) as Hrun.
  lazy zeta in Hrun. rewrite Hnet in Hrun. rewrite Hrun.
  replace (status_code r =? 200) with false by lia.
  replace ((400 <=? status_code r) && (status_code r <? 600)) with false
    by (symmetry; apply andb_false_iff; lia).
  reflexivity.
Qed.

(** A token fetch issues exactly one request, whatever comes back: a POST
    to [{auth_root}/connect/token] with the form content type as header
    and, as body, the client id and the client secret written as they
    are into [grant_type=client_credentials&client_id=...&client_secret=...]. *)
Theorem one_token_request (auth_root cid secret : value) (p : process) :
  sent (snd (request_auth_token json_loads str_container auth_root cid secret p))
  = (sent p ++ [token_request (fstr str_container auth_root)
                  (fstr str_container cid) (fstr str_container secret)])%list
  /\ forall root i s : string,
       token_request (fstr str_container (VStr root))
         (fstr str_container (VStr i)) (fstr str_container (VStr s))
       = mk_request "POST" (root ++ "/connect/token")
           ("grant_type=client_credentials&client_id=" ++ i
              ++ "&client_secret=" ++ s)
           [("Content-Type", "application/x-www-form-urlencoded")]
           [("Content-Type", "application/x-www-form-urlencoded")].
Proof.
  split; [|reflexivity].
  pose proof (request_auth_token_run auth_root cid secret p) as Hrun.
  lazy zeta in Hrun. rewrite Hrun.
  destruct (net p _) as [r|]; [|reflexivity].
  destruct (status_code r =? 200).
  - rewrite json_load_process. reflexivity.
  - destruct ((400 <=? status_code r) && (status_code r <? 600));
      [reflexivity|].
    rewrite json_load_process. reflexivity.
Qed.

(** [get_auth_token] on a config that has the three keys it reads. *)
Lemma get_auth_token_run (conn : dict) (auth_root cid secret : value)
    (p : process) :
  conn !! "SERVICETITAN_CLIENT_ID" = Some cid ->
  conn !! "SERVICETITAN_CLIENT_SECRET" = Some secret ->
  conn !! "auth_root" = Some auth_root ->
  get_auth_token json_loads str_container conn p
  = match request_auth_token json_loads str_container auth_root cid secret p with
    | (Return token, p') => subscript token "access_token" p'
    | (Raise e, p') => (Raise e, p')
    end.
Proof.
  intros Hcid Hsecret Hroot. unfold get_auth_token, getitem.
  rewrite Hcid, Hsecret, Hroot. reflexivity.
Qed.

(** C10: on a 200 response [request_auth_token] returns the whole decoded
    body; [get_auth_token] indexes it, and raises [KeyError] when the body
    is a JSON object without an ["access_token"] key. *)
Theorem missing_access_token (conn : dict) (auth_root cid secret : value)
    (p : process) (r : response) (body : dict) :
  conn !! "SERVICETITAN_CLIENT_ID" = Some cid ->
  conn !! "SERVICETITAN_CLIENT_SECRET" = Some secret ->
  conn !! "auth_root" = Some auth_root ->
  net p (token_request (fstr str_container auth_root)
           (fstr str_container cid) (fstr str_container secret)) = Some r ->
  status_code r = 200 ->
  json_loads (text r) = Some (VDict body) ->
  fst (request_auth_token json_loads str_container auth_root cid secret p)
    = Return (VDict body)
  /\ (body !! "access_token" = None ->
      fst (get_auth_token json_loads str_container conn p)
        = Raise (KeyError "access_token"))
  /\ (forall token, body !! "access_token" = Some token ->
      fst (get_auth_token json_loads str_container conn p) = Return token).
Proof.
  intros Hcid Hsecret Hroot Hnet Hstatus Hjson.
  pose proof (request_auth_token_run auth_root cid secret p) as Hrun.
  lazy zeta in Hrun. rewrite Hnet, Hstatus in Hrun. cbn [Z.eqb Pos.eqb] in Hrun.
  rewrite (json_load_Some _ _ _ Hjson) in Hrun.
  rewrite (get_auth_token_run conn auth_root cid secret p Hcid Hsecret Hroot).
  rewrite Hrun. split; [reflexivity|].
  unfold subscript. lazy beta iota. split.
  - intros ->. reflexivity.
  - intros token ->. reflexivity.
Qed.

(** C7: when the token endpoint answers 200 with the body
    [{"access_token": "abc123"}], the headers are the two-key mapping of
    ["Authorization"] to the bare string ["abc123"] and of ["ST-App-Key"]
    to the config's app key. *)
Theorem auth_headers_of_token (conn : dict) (auth_root cid secret key : value)
    (p : process) (r : response) :
  conn !! "SERVICETITAN_CLIENT_ID" = Some cid ->
  conn !! "SERVICETITAN_CLIENT_SECRET" = Some secret ->
  conn !! "auth_root" = Some auth_root ->
  conn !! "SERVICETITAN_APP_KEY" = Some key ->
  net p (token_request (fstr str_container auth_root)
           (fstr str_container cid) (fstr str_container secret)) = Some r ->
  status_code r = 200 ->
  json_loads (text r) = Some (VDict {[ "access_token" := VStr "abc123" ]}) ->
  fst (get_auth_headers json_loads str_container conn p)
  = Return {[ "Authorization" := VStr "abc123"; "ST-App-Key" := key ]}.
Proof.
  intros Hcid Hsecret Hroot Hkey Hnet Hstatus Hjson.
  pose proof (request_auth_token_run auth_root cid secret p) as Hrun.
  lazy zeta in Hrun. rewrite Hnet, Hstatus in Hrun. cbn [Z.eqb Pos.eqb] in Hrun.
  rewrite (json_load_Some _ _ _ Hjson) in Hrun.
  unfold get_auth_headers. unfold bind at 1.
  rewrite (get_auth_token_run conn auth_root cid secret p Hcid Hsecret Hroot).
  rewrite Hrun. unfold subscript. lazy beta iota. rewrite lookup_singleton_eq.
  unfold ret at 1. unfold bind at 1, get_app_key, getitem. rewrite Hkey.
  reflexivity.
Qed.

End Properties.

(** ** The code run on concrete calls *)

Lemma explicit_args_verbatim_witness :
  core_complete explicit_call = true /\
  exists cfg,
    servicepytan_connect demo_json_loads explicit_call env_process
      = (Return cfg, env_process) /\
    cfg !! "SERVICETITAN_APP_KEY" = Some (VStr "key") /\
    cfg !! "SERVICETITAN_CLIENT_SECRET" = Some (VStr "secret") /\
    servicepytan_connect demo_json_loads explicit_call quiet_process
      = (Return cfg, quiet_process).
Proof.
  split; [reflexivity|].
  destruct (explicit_args_verbatim demo_json_loads explicit_call env_process
              eq_refl eq_refl eq_refl eq_refl eq_refl eq_refl)
    as (cfg & Hrun & _ & Hkey & _ & _ & Hsecret & _ & _ & Hany).
  exists cfg. repeat split; [exact Hrun|exact Hkey|exact Hsecret|apply Hany].
Defined.

Lemma file_branch_urls_follow_argument_witness :
  truthy (config_file mismatch_call) = true /\
  exists cfg p',
    servicepytan_connect demo_json_loads mismatch_call quiet_process
      = (Return cfg, p') /\
    cfg !! "auth_root" = Some (VStr "https://auth-integration.servicetitan.io") /\
    cfg !! "api_root" = Some (VStr "https://api-integration.servicetitan.io") /\
    cfg !! "SERVICETITAN_API_ENVIRONMENT" = Some (VStr "production").
Proof.
  split; [reflexivity|].
  destruct (file_branch_urls_follow_argument demo_json_loads mismatch_call
              quiet_process production_json
              {[ "SERVICETITAN_API_ENVIRONMENT" := VStr "production" ]}
              eq_refl eq_refl eq_refl)
    as (cfg & p' & Hrun & Hauth & Hapi & Henv).
  exists cfg, p'. repeat split; [exact Hrun|exact Hauth|exact Hapi|exact Henv].
Defined.

Lemma app_key_only_file_witness :
  truthy (config_file file_call) = true /\
  exists cfg p',
    servicepytan_connect demo_json_loads file_call quiet_process
      = (Return cfg, p') /\
    cfg !! "SERVICETITAN_APP_KEY" = Some (VStr "X") /\
    (forall k, k ∈ AUTH_VARIABLES -> k <> "SERVICETITAN_APP_KEY" ->
               cfg !! k = Some (VStr "")) /\
    cfg !! "auth_root" = Some (VStr "https://auth.servicetitan.io") /\
    cfg !! "api_root" = Some (VStr "https://api.servicetitan.io").
Proof.
  split; [reflexivity|].
  destruct (app_key_only_file demo_json_loads file_call quiet_process
              app_key_only_json "X" eq_refl eq_refl eq_refl)
    as (cfg & p' & Hrun & Hkey & Hothers & Hauth & Hapi).
  exists cfg, p'.
  repeat split; [exact Hrun|exact Hkey|exact Hothers|exact Hauth|exact Hapi].
Defined.

(** C1, as stated, fails: the file holds the app key alone, and yet two of
    the other eight fields, the URLs, are not the empty string. *)
Lemma app_key_only_file_keeps_urls :
  exists cfg p',
    servicepytan_connect demo_json_loads file_call quiet_process
      = (Return cfg, p') /\
    cfg !! "SERVICETITAN_APP_KEY" = Some (VStr "X") /\
    cfg !! "auth_root" = Some (VStr "https://auth.servicetitan.io") /\
    ~ (forall k, k ∈ CONFIG_KEYS -> k <> "SERVICETITAN_APP_KEY" ->
                 cfg !! k = Some (VStr "")).
Proof.
  assert (Hin : "auth_root" ∈ CONFIG_KEYS) by in_keys.
  pose proof (connect_file demo_json_loads file_call quiet_process eq_refl)
    as Hrun.
  eexists _, _. split; [exact Hrun|].
  split; [vm_compute; reflexivity|].
  match goal with
  | |- ?lookup = ?url /\ _ =>
      assert (Hauth : lookup = url) by apply lookup_filled_auth_root;
      split; [exact Hauth|]
  end.
  intros Hall.
  specialize (Hall "auth_root" Hin ltac:(discriminate)).
  rewrite Hauth in Hall. discriminate Hall.
Qed.



Lemma environment_fills_variables_witness :
  truthy (config_file partial_call) = false /\
  truthy (tenant_id partial_call) = false /\
  exists cfg p',
    servicepytan_connect demo_json_loads partial_call env_process
      = (Return cfg, p') /\
    cfg !! "SERVICETITAN_APP_KEY" = Some (VStr "key-from-env") /\
    cfg !! "SERVICETITAN_TIMEZONE" = Some (VStr "") /\
    cfg !! "SERVICETITAN_TENANT_ID" = Some (VStr "") /\
    advisory "SERVICETITAN_TENANT_ID" ∈ stdout p' /\
    length (stdout p') = 7%nat.
Proof.
  split; [reflexivity|]. split; [reflexivity|].
  destruct (environment_fills_variables demo_json_loads partial_call
              env_process eq_refl (or_intror (or_intror (or_introl eq_refl))))
    as (cfg & p' & Hrun & Hvars & Hout & Hunset & _).
  exists cfg, p'. split; [exact Hrun|].
  assert (Htenant : loaded_environ env_process !! "SERVICETITAN_TENANT_ID"
                    = None) by (vm_compute; reflexivity).
  split; [rewrite (Hvars "SERVICETITAN_APP_KEY") by in_keys;
          vm_compute; reflexivity|].
  split; [rewrite (Hvars "SERVICETITAN_TIMEZONE") by in_keys;
          vm_compute; reflexivity|].
  split; [apply (Hunset "SERVICETITAN_TENANT_ID" ltac:(in_keys) Htenant)|].
  split; [apply (Hunset "SERVICETITAN_TENANT_ID" ltac:(in_keys) Htenant)|].
  rewrite Hout. vm_compute. reflexivity.
Defined.

(** C4, as stated, fails: the environment branch is taken, the
    environment has no [auth_root], and the field is neither empty nor
    read from the environment. *)
Lemma environment_branch_keeps_urls :
  exists cfg p',
    servicepytan_connect demo_json_loads partial_call env_process
      = (Return cfg, p') /\
    loaded_environ env_process !! "auth_root" = None /\
    cfg !! "auth_root" = Some (VStr "https://auth.servicetitan.io") /\
    ~ (forall k, k ∈ CONFIG_KEYS ->
         cfg !! k = Some (environ_or_empty (loaded_environ env_process) k)).
Proof.
  assert (Hin : "auth_root" ∈ CONFIG_KEYS) by in_keys.
  pose proof (connect_environment demo_json_loads partial_call env_process
                eq_refl) as Hrun.
  eexists _, _. split; [exact Hrun|].
  split; [vm_compute; reflexivity|].
  match goal with
  | |- ?lookup = ?url /\ _ =>
      assert (Hauth : lookup = url) by apply lookup_filled_auth_root;
      split; [exact Hauth|]
  end.
  intros Hall. specialize (Hall "auth_root" Hin).
  rewrite Hauth in Hall. vm_compute in Hall. discriminate Hall.
Qed.

(** A 401 answer: the body is printed, an HTTP-status error is raised, and
    the request is not sent again. *)
Example status_401_raises :
  let run := request_auth_token demo_json_loads demo_str_container
               (VStr "https://auth.servicetitan.io") (VStr "cid") (VStr "secret")
               denied_process in
  fst run = Raise (HTTPError 401)
  /\ stdout (snd run) = ["Error fetching auth token: invalid_client"]
  /\ sent (snd run)
     = [token_request "https://auth.servicetitan.io" "cid" "secret"].
Proof. lazy zeta. repeat split. Qed.

(** A call that passes the environment selector alone takes the
    environment branch: the selector field is overwritten by what the
    environment holds, here nothing, while the URLs keep following the
    argument. *)
Example default_call_reads_environment :
  exists cfg p',
    servicepytan_connect demo_json_loads (default_args (Some "production"))
      env_process = (Return cfg, p') /\
    cfg !! "SERVICETITAN_API_ENVIRONMENT" = Some (VStr "") /\
    cfg !! "SERVICETITAN_TIMEZONE" = Some (VStr "") /\
    cfg !! "auth_root" = Some (VStr "https://auth.servicetitan.io").
Proof.
  eexists _, _.
  split; [apply (connect_environment demo_json_loads
                   (default_args (Some "production")) env_process eq_refl)|].
  split; [rewrite lookup_filled_var by in_keys; vm_compute; reflexivity|].
  split; [rewrite lookup_filled_var by in_keys; vm_compute; reflexivity|].
  apply lookup_filled_auth_root.
Qed.

(** C6: the token endpoint answers 300 with a JSON body.  The body is
    printed as an error, one request has been issued, and the call
    returns the decoded body: no HTTP-status error is raised. *)
Theorem status_300_returns :
  let run := request_auth_token demo_json_loads demo_str_container
               (VStr "https://auth.servicetitan.io") (VStr "cid") (VStr "secret")
               redirect_process in
  fst run = Return (VDict {[ "access_token" := VStr "abc123" ]})
  /\ stdout (snd run) = ["Error fetching auth token: " ++ token_json]
  /\ sent (snd run)
     = [token_request "https://auth.servicetitan.io" "cid" "secret"].
Proof. lazy zeta. repeat split. Qed.

Lemma missing_access_token_witness :
  status_code (mk_response 200 no_token_json) = 200 /\
  fst (request_auth_token demo_json_loads demo_str_container
         (VStr "https://auth.servicetitan.io") (VStr "cid") (VStr "secret")
         no_token_process)
    = Return (VDict {[ "token_type" := VStr "Bearer" ]}) /\
  fst (get_auth_token demo_json_loads demo_str_container demo_conn
         no_token_process)
    = Raise (KeyError "access_token").
Proof.
  split; [reflexivity|].
  destruct (missing_access_token demo_json_loads demo_str_container demo_conn
              (VStr "https://auth.servicetitan.io") (VStr "cid") (VStr "secret")
              no_token_process (mk_response 200 no_token_json)
              {[ "token_type" := VStr "Bearer" ]}
              eq_refl eq_refl eq_refl eq_refl eq_refl eq_refl)
    as (Hwhole & Hmissing & _).
  split; [exact Hwhole|apply Hmissing; reflexivity].
Defined.

Lemma auth_headers_of_token_witness :
  status_code (mk_response 200 token_json) = 200 /\
  fst (get_auth_headers demo_json_loads demo_str_container demo_conn
         quiet_process)
    = Return {[ "Authorization" := VStr "abc123"; "ST-App-Key" := VStr "key" ]}.
Proof.
  split; [reflexivity|].
  apply (auth_headers_of_token demo_json_loads demo_str_container demo_conn
           (VStr "https://auth.servicetitan.io") (VStr "cid") (VStr "secret")
           (VStr "key") quiet_process (mk_response 200 token_json));
    reflexivity.
Defined.

(** ** Further properties of the resolver *)

(** The dict literal outside the seven variables: the two URL keys, and
    nothing else. *)
Lemma auth_config_object_other (a : connect_args) (k : string) :
  k ∉ AUTH_VARIABLES ->
  auth_config_object a !! k
  = if decide (k = "auth_root")
    then Some (VStr (get_auth_root_url (of_arg (api_environment a))))
    else if decide (k = "api_root")
    then Some (VStr (get_api_root_url (of_arg (api_environment a))))
    else None.
Proof.
  intros Hk.
  assert (Hne : forall v, v ∈ AUTH_VARIABLES -> v <> k)
    by (intros v Hv ->; contradiction).
  unfold auth_config_object. simpl list_to_map.
  rewrite !lookup_insert_ne by (apply Hne; in_keys).
  rewrite !lookup_insert, lookup_empty.
  destruct (decide (k = "auth_root")) as [->|H1].
  - rewrite decide_True by reflexivity. reflexivity.
  - rewrite decide_False by congruence.
    destruct (decide (k = "api_root")) as [->|H2].
    + rewrite decide_True by reflexivity. reflexivity.
    + rewrite decide_False by congruence. reflexivity.
Qed.

(** The seven variables once written, the config no longer depends on the
    credential arguments. *)
Lemma filled_config_ext (f : string -> value) (a b : connect_args) :
  api_environment a = api_environment b ->
  foldl (fun m v => <[v := f v]> m) (auth_config_object a) AUTH_VARIABLES
  = foldl (fun m v => <[v := f v]> m) (auth_config_object b) AUTH_VARIABLES.
Proof.
  intros Henv. apply map_eq. intros k. rewrite !lookup_foldl_insert.
  destruct (decide (k ∈ AUTH_VARIABLES)) as [Hk|Hk]; [reflexivity|].
  rewrite !auth_config_object_other by exact Hk. rewrite Henv. reflexivity.
Qed.

Section Resolver.

Variable json_loads : string -> option value.

(** A call that returns went through one of three shapes of result. *)
Lemma connect_returned (a : connect_args) (p p' : process) (cfg : dict) :
  servicepytan_connect json_loads a p = (Return cfg, p') ->
  cfg = auth_config_object a
  \/ exists f, cfg = foldl (fun m v => <[v := f v]> m)
                      (auth_config_object a) AUTH_VARIABLES.
Proof.
  intros Hrun.
  destruct (truthy (config_file a)) eqn:Hf.
  - pose proof (connect_file json_loads a p Hf) as Hfile. lazy zeta in Hfile.
    rewrite Hrun in Hfile.
    destruct (fs p (default "" (config_file a))) as [content|]; [|discriminate].
    destruct (json_loads content) as [[| | | | | |creds]|]; try discriminate.
    apply returned_inv in Hfile as [-> _]. right. eexists. reflexivity.
  - destruct (core_complete a) eqn:Hc.
    + rewrite (connect_explicit json_loads a p) in Hrun
        by (unfold explicit_branch; rewrite Hf, Hc; reflexivity).
      apply returned_inv in Hrun as [<- _]. left. reflexivity.
    + rewrite (connect_environment json_loads a p) in Hrun
        by (unfold environment_branch; rewrite Hf, Hc; reflexivity).
      apply returned_inv in Hrun as [<- _]. right. eexists. reflexivity.
Qed.

(** X1: with a config file given, the call returns a config exactly when
    the file can be read and its content decodes to a JSON object; in
    every case one line is printed and [os.environ] is left alone. *)
Theorem file_branch_returns_iff (a : connect_args) (p : process) :
  truthy (config_file a) = true ->
  ((exists cfg, fst (servicepytan_connect json_loads a p) = Return cfg)
   <-> exists content creds,
         fs p (default "" (config_file a)) = Some content
         /\ json_loads content = Some (VDict creds))
  /\ stdout (snd (servicepytan_connect json_loads a p))
     = (stdout p ++ ["Setting auth config from file..."])%list
  /\ environ (snd (servicepytan_connect json_loads a p)) = environ p.
Proof.
  intros Hf. pose proof (connect_file json_loads a p Hf) as Hrun.
  lazy zeta in Hrun. rewrite Hrun. clear Hrun.
  split.
  - destruct (fs p (default "" (config_file a))) as [content|] eqn:Hfs;
      [destruct (json_loads content) as [[| | | | | |creds]|] eqn:Hjson|];
      cbn [fst];
      (split;
       [ intros [cfg Hcfg];
         first [ discriminate Hcfg
               | eexists _, _; split; [reflexivity|exact Hjson] ]
       | intros (c & d & Hc & Hd);
         first [ discriminate Hc
               | injection Hc as <-; rewrite Hjson in Hd;
                 first [discriminate Hd | eexists; reflexivity] ] ]).
  - destruct (fs p (default "" (config_file a))) as [content|];
      [destruct (json_loads content) as [[| | | | | |creds]|]|];
      split; reflexivity.
Qed.

(** X2: what a config file that cannot be used raises: [OSError] when it
    cannot be opened, [JSONDecodeError] when its content is not JSON,
    [AttributeError] when the JSON is not an object. *)
Theorem file_branch_errors (a : connect_args) (p : process) :
  truthy (config_file a) = true ->
  let path := default "" (config_file a) in
  (fs p path = None ->
     fst (servicepytan_connect json_loads a p) = Raise (OSError path))
  /\ (forall content, fs p path = Some content -> json_loads content = None ->
        fst (servicepytan_connect json_loads a p)
        = Raise (JSONDecodeError content))
  /\ (forall content v, fs p path = Some content ->
        json_loads content = Some v -> (forall creds, v <> VDict creds) ->
        fst (servicepytan_connect json_loads a p)
        = Raise (AttributeError "get")).
Proof.
  intros Hf. lazy zeta.
  pose proof (connect_file json_loads a p Hf) as Hrun. lazy zeta in Hrun.
  rewrite Hrun. clear Hrun. split; [|split].
  - intros ->. reflexivity.
  - intros content -> ->. reflexivity.
  - intros content v -> -> Hv.
    destruct v as [| | | | | |creds]; try reflexivity.
    exfalso. apply (Hv creds). reflexivity.
Qed.

(** X3: with a config file given, only [api_environment] and
    [config_file] matter: two calls that agree on them behave alike,
    whatever credentials, app id and timezone they pass. *)
Theorem file_branch_ignores_credentials (a b : connect_args) (p : process) :
  truthy (config_file a) = true ->
  config_file a = config_file b ->
  api_environment a = api_environment b ->
  servicepytan_connect json_loads a p = servicepytan_connect json_loads b p.
Proof.
  intros Hf Hfile Henv.
  assert (Hfb : truthy (config_file b) = true) by (rewrite <- Hfile; exact Hf).
  pose proof (connect_file json_loads a p Hf) as Ha.
  pose proof (connect_file json_loads b p Hfb) as Hb.
  lazy zeta in Ha, Hb. rewrite Ha, Hb, <- Hfile.
  destruct (fs p (default "" (config_file a))) as [content|]; [|reflexivity].
  destruct (json_loads content) as [[| | | | | |creds]|]; try reflexivity.
  rewrite (filled_config_ext _ a b Henv). reflexivity.
Qed.

(** X4: in the environment branch too, the credentials that were passed
    are dropped: two calls that take this branch with the same
    [api_environment] behave alike. *)
Theorem environment_branch_ignores_credentials (a b : connect_args)
    (p : process) :
  environment_branch a = true ->
  environment_branch b = true ->
  api_environment a = api_environment b ->
  servicepytan_connect json_loads a p = servicepytan_connect json_loads b p.
Proof.
  intros Ha Hb Henv.
  rewrite (connect_environment json_loads a p Ha).
  rewrite (connect_environment json_loads b p Hb).
  rewrite (filled_config_ext _ a b Henv). reflexivity.
Qed.

(** X5: a value the config file holds for one of the seven variables is
    copied as it is, whatever its JSON type ([null] gives [None], a
    number stays a number); only a missing key gives the empty string. *)
Theorem file_values_verbatim (a : connect_args) (p : process)
    (content : string) (creds : dict) :
  truthy (config_file a) = true ->
  fs p (default "" (config_file a)) = Some content ->
  json_loads content = Some (VDict creds) ->
  exists cfg p',
    servicepytan_connect json_loads a p = (Return cfg, p') /\
    forall var, var ∈ AUTH_VARIABLES ->
      (forall v, creds !! var = Some v -> cfg !! var = Some v)
      /\ (creds !! var = None -> cfg !! var = Some (VStr "")).
Proof.
  intros Hf Hfs Hjson.
  pose proof (connect_file json_loads a p Hf) as Hrun. lazy zeta in Hrun.
  rewrite Hfs, Hjson in Hrun.
  eexists _, _. split; [exact Hrun|].
  intros var Hvar. rewrite lookup_filled_var by exact Hvar.
  unfold file_or_empty. split.
  - intros v ->. reflexivity.
  - intros ->. reflexivity.
Qed.

(** X6: a returned config has the nine keys and no other: a key of the
    config file outside the seven variables never gets in. *)
Theorem config_keys_exact (a : connect_args) (p p' : process) (cfg : dict) :
  servicepytan_connect json_loads a p = (Return cfg, p') ->
  forall k, is_Some (cfg !! k) <-> k ∈ CONFIG_KEYS.
Proof.
  intros Hrun k.
  assert (Hkeys : k ∈ CONFIG_KEYS <->
            k ∈ AUTH_VARIABLES \/ k = "auth_root" \/ k = "api_root").
  { unfold CONFIG_KEYS. rewrite elem_of_app, !elem_of_cons.
    pose proof (not_elem_of_nil k) as Hnil. tauto. }
  assert (Hinit : is_Some (auth_config_object a !! k) <-> k ∈ CONFIG_KEYS).
  { rewrite Hkeys. destruct (decide (k ∈ AUTH_VARIABLES)) as [Hk|Hk].
    - rewrite auth_config_object_var by exact Hk.
      split; [auto|intros _; eexists; reflexivity].
    - rewrite auth_config_object_other by exact Hk.
      repeat case_decide; split; try (intros _; eexists; reflexivity);
        try tauto.
      intros [x Hx]. discriminate Hx. }
  destruct (connect_returned a p p' cfg Hrun) as [->|[f ->]]; [exact Hinit|].
  rewrite lookup_foldl_insert.
  destruct (decide (k ∈ AUTH_VARIABLES)) as [Hk|Hk]; [|exact Hinit].
  rewrite Hkeys. split; [auto|intros _; eexists; reflexivity].
Qed.

(** X7: in a returned config the two URLs always go together: both are the
    production URLs when the [api_environment] argument is the string
    ["production"], both are the integration URLs for any other argument,
    [None] included. *)
Theorem urls_go_together (a : connect_args) (p p' : process) (cfg : dict) :
  servicepytan_connect json_loads a p = (Return cfg, p') ->
  (api_environment a = Some "production"
   /\ cfg !! "auth_root" = Some (VStr "https://auth.servicetitan.io")
   /\ cfg !! "api_root" = Some (VStr "https://api.servicetitan.io"))
  \/ (api_environment a <> Some "production"
      /\ cfg !! "auth_root"
         = Some (VStr "https://auth-integration.servicetitan.io")
      /\ cfg !! "api_root"
         = Some (VStr "https://api-integration.servicetitan.io")).
Proof.
  intros Hrun.
  assert (Hurls : cfg !! "auth_root"
                  = Some (VStr (get_auth_root_url (of_arg (api_environment a))))
                  /\ cfg !! "api_root"
                  = Some (VStr (get_api_root_url (of_arg (api_environment a))))).
  { destruct (connect_returned a p p' cfg Hrun) as [->|[f ->]].
    - split; reflexivity.
    - split; [apply lookup_filled_auth_root|apply lookup_filled_api_root]. }
  destruct Hurls as [-> ->].
  unfold get_auth_root_url, get_api_root_url, is_production,
    ApiEnvironment.PRODUCTION.
  destruct (api_environment a) as [env|]; cbn [of_arg].
  - destruct (String.eqb_spec env "production") as [->|Hne].
    + left. repeat split.
    + right. repeat split. congruence.
  - right. repeat split. discriminate.
Qed.

(** X8: resolving a second time, in the process the first call left,
    gives the outcome of the first call. *)
Theorem resolve_twice_same (a : connect_args) (p : process) :
  fst (servicepytan_connect json_loads a
         (snd (servicepytan_connect json_loads a p)))
  = fst (servicepytan_connect json_loads a p).
Proof.
  destruct (truthy (config_file a)) eqn:Hf.
  - pose proof (connect_file json_loads a) as Hfile. lazy zeta in Hfile.
    rewrite (Hfile p Hf).
    destruct (fs p (default "" (config_file a))) as [content|] eqn:Hfs.
    + destruct (json_loads content) as [[| | | | | |creds]|] eqn:Hjson;
        cbn [fst snd]; rewrite (Hfile _ Hf); cbn [fs]; rewrite Hfs, Hjson;
        reflexivity.
    + cbn [fst snd]. rewrite (Hfile _ Hf). cbn [fs]. rewrite Hfs. reflexivity.
  - destruct (core_complete a) eqn:Hc.
    + assert (Hb : explicit_branch a = true)
        by (unfold explicit_branch; rewrite Hf, Hc; reflexivity).
      rewrite !(connect_explicit json_loads a _ Hb). reflexivity.
    + assert (Hb : environment_branch a = true)
        by (unfold environment_branch; rewrite Hf, Hc; reflexivity).
      rewrite !(connect_environment json_loads a _ Hb). cbn [fst snd].
      unfold loaded_environ at 1. cbn [environ dotenv].
      unfold loaded_environ at 1.
      rewrite <- (assoc_L (∪)), (idemp_L (∪)). reflexivity.
Qed.

(** X9: the environment branch leaves [os.environ] extended by the [.env]
    file.  A variable set in the process environment keeps its value and
    is the one the config gets; a variable set in the [.env] file alone
    is taken from there. *)
Theorem environment_before_dotenv (a : connect_args) (p : process) :
  environment_branch a = true ->
  exists cfg p',
    servicepytan_connect json_loads a p = (Return cfg, p') /\
    environ p' = environ p ∪ dotenv p /\
    forall var, var ∈ AUTH_VARIABLES ->
      (forall v, environ p !! var = Some v ->
         environ p' !! var = Some v /\ cfg !! var = Some (VStr v))
      /\ (forall v, environ p !! var = None -> dotenv p !! var = Some v ->
            environ p' !! var = Some v /\ cfg !! var = Some (VStr v)).
Proof.
  intros Hb. eexists _, _.
  split; [apply (connect_environment json_loads a p Hb)|].
  cbn [environ]. split; [reflexivity|].
  intros var Hvar. rewrite lookup_filled_var by exact Hvar.
  unfold environ_or_empty, loaded_environ. split.
  - intros v Hv. rewrite (lookup_union_Some_l _ _ _ _ Hv). split; reflexivity.
  - intros v Hnone Hv. rewrite lookup_union_r by exact Hnone.
    rewrite Hv. split; reflexivity.
Qed.

(** X10: the resolver never talks to the network, and outside the
    environment branch it leaves [os.environ] as it is. *)
Theorem resolver_sends_nothing (a : connect_args) (p : process) :
  sent (snd (servicepytan_connect json_loads a p)) = sent p
  /\ (environment_branch a = false ->
      environ (snd (servicepytan_connect json_loads a p)) = environ p).
Proof.
  destruct (truthy (config_file a)) eqn:Hf.
  - pose proof (connect_file json_loads a p Hf) as Hfile. lazy zeta in Hfile.
    rewrite Hfile.
    destruct (fs p (default "" (config_file a))) as [content|];
      [destruct (json_loads content) as [[| | | | | |creds]|]|];
      split; reflexivity.
  - destruct (core_complete a) eqn:Hc.
    + rewrite (connect_explicit json_loads a p)
        by (unfold explicit_branch; rewrite Hf, Hc; reflexivity).
      split; reflexivity.
    + assert (Hb : environment_branch a = true)
        by (unfold environment_branch; rewrite Hf, Hc; reflexivity).
      rewrite (connect_environment json_loads a p Hb).
      split; [reflexivity|]. rewrite Hb. discriminate.
Qed.

End Resolver.

(** ** Further properties of the token fetcher and the header assembler *)

Section Fetcher.

Variable json_loads : string -> option value.
Variable str_container : value -> string.

(** [get_auth_headers] on a config that has the three keys of the token
    fetch, path by path. *)
Lemma get_auth_headers_run (conn : dict) (auth_root cid secret : value)
    (p : process) :
  conn !! "SERVICETITAN_CLIENT_ID" = Some cid ->
  conn !! "SERVICETITAN_CLIENT_SECRET" = Some secret ->
  conn !! "auth_root" = Some auth_root ->
  let req := token_request (fstr str_container auth_root)
               (fstr str_container cid) (fstr str_container secret) in
  get_auth_headers json_loads str_container conn p
  = match net p req with
    | None => (Raise RequestException, after_request p req)
    | Some r =>
        if status_code r =? 200 then
          assemble_headers conn (json_loads (text r)) (text r)
            (after_request p req)
        else if (400 <=? status_code r) && (status_code r <? 600) then
          (Raise (HTTPError (status_code r)), after_diagnostic p req (text r))
        else
          assemble_headers conn (json_loads (text r)) (text r)
            (after_diagnostic p req (text r))
    end.
Proof.
  intros Hcid Hsecret Hroot. lazy zeta.
  unfold get_auth_headers. unfold bind at 1.
  rewrite (get_auth_token_run json_loads str_container conn auth_root cid
             secret p Hcid Hsecret Hroot).
  pose proof (request_auth_token_run json_loads str_container auth_root cid
                secret p) as Hrun.
  lazy zeta in Hrun. rewrite Hrun. clear Hrun.
  assert (Hdecode : forall doc q,
    match
      match json_load json_loads doc q with
      | (Return token, p') => subscript token "access_token" p'
      | (Raise e, p') => (Raise e, p')
      end
    with
    | (Return a, p') =>
        (let* st_app_key := get_app_key conn in
         ret (list_to_map [("Authorization", a); ("ST-App-Key", st_app_key)]))
          p'
    | (Raise e, p') => (Raise e, p')
    end = assemble_headers conn (json_loads doc) doc q).
  { intros doc q. unfold json_load, assemble_headers.
    destruct (json_loads doc) as [[| | | | | |body]|]; try reflexivity.
    unfold ret at 1, subscript.
    destruct (body !! "access_token") as [token|]; [|reflexivity].
    unfold ret at 1, bind, get_app_key, getitem.
    destruct (conn !! "SERVICETITAN_APP_KEY"); reflexivity. }
  destruct (net p _) as [r|]; [|reflexivity].
  destruct (status_code r =? 200); [apply Hdecode|].
  destruct ((400 <=? status_code r) && (status_code r <? 600));
    [reflexivity|apply Hdecode].
Qed.

Lemma assemble_headers_process (conn : dict) (decoded : option value)
    (doc : string) (q : process) :
  snd (assemble_headers conn decoded doc q) = q.
Proof.
  unfold assemble_headers.
  destruct decoded as [[| | | | | |body]|]; try reflexivity.
  destruct (body !! "access_token"); [|reflexivity].
  destruct (conn !! "SERVICETITAN_APP_KEY"); reflexivity.
Qed.

(** Whatever happens, the fetch leaves behind the same surroundings and
    one more request. *)
Lemma get_auth_headers_frame (conn : dict) (auth_root cid secret : value)
    (p : process) :
  conn !! "SERVICETITAN_CLIENT_ID" = Some cid ->
  conn !! "SERVICETITAN_CLIENT_SECRET" = Some secret ->
  conn !! "auth_root" = Some auth_root ->
  let req := token_request (fstr str_container auth_root)
               (fstr str_container cid) (fstr str_container secret) in
  let p' := snd (get_auth_headers json_loads str_container conn p) in
  net p' = net p /\ sent p' = (sent p ++ [req])%list.
Proof.
  intros Hcid Hsecret Hroot. lazy zeta.
  pose proof (get_auth_headers_run conn auth_root cid secret p
                Hcid Hsecret Hroot) as Hrun.
  lazy zeta in Hrun. rewrite Hrun. clear Hrun.
  destruct (net p _) as [r|]; [|split; reflexivity].
  destruct (status_code r =? 200);
    [rewrite assemble_headers_process; split; reflexivity|].
  destruct ((400 <=? status_code r) && (status_code r <? 600));
    [split; reflexivity|].
  rewrite assemble_headers_process; split; reflexivity.
Qed.

(** X11: the three keys of the token fetch are read first, in the order
    client id, client secret, auth root; the first one missing raises
    [KeyError], and nothing has been sent or printed by then. *)
Theorem token_keys_read_first (conn : dict) (p : process) :
  (conn !! "SERVICETITAN_CLIENT_ID" = None ->
     get_auth_headers json_loads str_container conn p
     = (Raise (KeyError "SERVICETITAN_CLIENT_ID"), p))
  /\ (is_Some (conn !! "SERVICETITAN_CLIENT_ID") ->
      conn !! "SERVICETITAN_CLIENT_SECRET" = None ->
      get_auth_headers json_loads str_container conn p
      = (Raise (KeyError "SERVICETITAN_CLIENT_SECRET"), p))
  /\ (is_Some (conn !! "SERVICETITAN_CLIENT_ID") ->
      is_Some (conn !! "SERVICETITAN_CLIENT_SECRET") ->
      conn !! "auth_root" = None ->
      get_auth_headers json_loads str_container conn p
      = (Raise (KeyError "auth_root"), p)).
Proof.
  unfold get_auth_headers, get_auth_token, getitem.
  split; [|split].
  - intros ->. reflexivity.
  - intros [cid ->] ->. reflexivity.
  - intros [cid ->] [secret ->] ->. reflexivity.
Qed.

(** X12: a call of [get_auth_headers] on a config with the three keys of
    the token fetch sends exactly one request, whatever the outcome;
    nothing is kept from one call to the next, so a second call sends
    the same request again. *)
Theorem headers_fetch_every_time (conn : dict) (auth_root cid secret : value)
    (p : process) :
  conn !! "SERVICETITAN_CLIENT_ID" = Some cid ->
  conn !! "SERVICETITAN_CLIENT_SECRET" = Some secret ->
  conn !! "auth_root" = Some auth_root ->
  let req := token_request (fstr str_container auth_root)
               (fstr str_container cid) (fstr str_container secret) in
  let p1 := snd (get_auth_headers json_loads str_container conn p) in
  let p2 := snd (get_auth_headers json_loads str_container conn p1) in
  sent p1 = (sent p ++ [req])%list
  /\ sent p2 = (sent p ++ [req; req])%list
  /\ fst (get_auth_headers json_loads str_container conn p1)
     = fst (get_auth_headers json_loads str_container conn p).
Proof.
  intros Hcid Hsecret Hroot. lazy zeta.
  destruct (get_auth_headers_frame conn auth_root cid secret p
              Hcid Hsecret Hroot) as [Hnet1 Hsent1]. lazy zeta in Hnet1, Hsent1.
  destruct (get_auth_headers_frame conn auth_root cid secret
              (snd (get_auth_headers json_loads str_container conn p))
              Hcid Hsecret Hroot) as [_ Hsent2]. lazy zeta in Hsent2.
  split; [exact Hsent1|].
  split; [rewrite Hsent2, Hsent1, <- app_assoc; reflexivity|].
  assert (Hsame : forall q, net q = net p ->
            fst (get_auth_headers json_loads str_container conn q)
            = fst (get_auth_headers json_loads str_container conn p)).
  { intros q Hq.
    pose proof (get_auth_headers_run conn auth_root cid secret) as Hrun.
    lazy zeta in Hrun. rewrite !(Hrun _ Hcid Hsecret Hroot). rewrite Hq.
    destruct (net p _) as [r|]; [|reflexivity].
    assert (Hfst : forall q1 q2,
              fst (assemble_headers conn (json_loads (text r)) (text r) q1)
              = fst (assemble_headers conn (json_loads (text r)) (text r) q2)).
    { intros q1 q2. unfold assemble_headers.
      destruct (json_loads (text r)) as [[| | | | | |body]|]; try reflexivity.
      destruct (body !! "access_token"); [|reflexivity].
      destruct (conn !! "SERVICETITAN_APP_KEY"); reflexivity. }
    destruct (status_code r =? 200); [apply Hfst|].
    destruct ((400 <=? status_code r) && (status_code r <? 600));
      [reflexivity|apply Hfst]. }
  apply Hsame, Hnet1.
Qed.

(** X13: the app key is read last: a config without it still has its
    token fetched, and [KeyError] comes only after the request went out
    and the answer was decoded. *)
Theorem app_key_missing_after_fetch (conn : dict)
    (auth_root cid secret token : value) (p : process) (r : response)
    (body : dict) :
  conn !! "SERVICETITAN_CLIENT_ID" = Some cid ->
  conn !! "SERVICETITAN_CLIENT_SECRET" = Some secret ->
  conn !! "auth_root" = Some auth_root ->
  conn !! "SERVICETITAN_APP_KEY" = None ->
  let req := token_request (fstr str_container auth_root)
               (fstr str_container cid) (fstr str_container secret) in
  net p req = Some r ->
  status_code r = 200 ->
  json_loads (text r) = Some (VDict body) ->
  body !! "access_token" = Some token ->
  get_auth_headers json_loads str_container conn p
  = (Raise (KeyError "SERVICETITAN_APP_KEY"), after_request p req).
Proof.
  intros Hcid Hsecret Hroot Hkey. lazy zeta. intros Hnet Hstatus Hjson Htoken.
  pose proof (get_auth_headers_run conn auth_root cid secret p
                Hcid Hsecret Hroot) as Hrun.
  lazy zeta in Hrun. rewrite Hrun, Hnet, Hstatus, Hjson.
  unfold assemble_headers. rewrite Htoken, Hkey. reflexivity.
Qed.

(** X14: a status from 400 to 599 ends [get_auth_headers] with
    [HTTPError]: the body is printed, not decoded, the request is not
    repeated, and the app key is not even looked up. *)
Theorem headers_http_error (conn : dict) (auth_root cid secret : value)
    (p : process) (r : response) :
  conn !! "SERVICETITAN_CLIENT_ID" = Some cid ->
  conn !! "SERVICETITAN_CLIENT_SECRET" = Some secret ->
  conn !! "auth_root" = Some auth_root ->
  let req := token_request (fstr str_container auth_root)
               (fstr str_container cid) (fstr str_container secret) in
  net p req = Some r ->
  400 <= status_code r < 600 ->
  get_auth_headers json_loads str_container conn p
  = (Raise (HTTPError (status_code r)),
     mk_process (fs p) (net p) (dotenv p) (environ p)
       (stdout p ++ ["Error fetching auth token: " ++ text r])
       (sent p ++ [req])).
Proof.
  intros Hcid Hsecret Hroot. lazy zeta. intros Hnet Hstatus.
  pose proof (get_auth_headers_run conn auth_root cid secret p
                Hcid Hsecret Hroot) as Hrun.
  lazy zeta in Hrun. rewrite Hrun, Hnet.
  replace (status_code r =? 200) with false by lia.
  replace ((400 <=? status_code r) && (status_code r <? 600)) with true
    by (symmetry; apply andb_true_intro; split; lia).
  reflexivity.
Qed.

(** X15: a 200 answer that cannot be used: a body that is not JSON raises
    [JSONDecodeError], a JSON body that is not an object raises
    [TypeError]; in both cases nothing is printed. *)
Theorem unusable_body (conn : dict) (auth_root cid secret : value)
    (p : process) (r : response) :
  conn !! "SERVICETITAN_CLIENT_ID" = Some cid ->
  conn !! "SERVICETITAN_CLIENT_SECRET" = Some secret ->
  conn !! "auth_root" = Some auth_root ->
  let req := token_request (fstr str_container auth_root)
               (fstr str_container cid) (fstr str_container secret) in
  net p req = Some r ->
  status_code r = 200 ->
  (json_loads (text r) = None ->
     get_auth_headers json_loads str_container conn p
     = (Raise (JSONDecodeError (text r)), after_request p req))
  /\ (forall v, json_loads (text r) = Some v -> (forall body, v <> VDict body) ->
        get_auth_headers json_loads str_container conn p
        = (Raise TypeError, after_request p req)).
Proof.
  intros Hcid Hsecret Hroot. lazy zeta. intros Hnet Hstatus.
  pose proof (get_auth_headers_run conn auth_root cid secret p
                Hcid Hsecret Hroot) as Hrun.
  lazy zeta in Hrun. rewrite Hrun, Hnet, Hstatus. cbn [Z.eqb Pos.eqb].
  split.
  - intros ->. reflexivity.
  - intros v -> Hv. destruct v as [| | | | | |body]; try reflexivity.
    exfalso. apply (Hv body). reflexivity.
Qed.

(** X16: on a 200 answer the Authorization header is whatever the body
    holds at ["access_token"], of any JSON type, with no prefix and no
    check; other keys of the body are ignored and nothing is printed. *)
Theorem headers_any_token (conn : dict) (auth_root cid secret key token : value)
    (p : process) (r : response) (body : dict) :
  conn !! "SERVICETITAN_CLIENT_ID" = Some cid ->
  conn !! "SERVICETITAN_CLIENT_SECRET" = Some secret ->
  conn !! "auth_root" = Some auth_root ->
  conn !! "SERVICETITAN_APP_KEY" = Some key ->
  let req := token_request (fstr str_container auth_root)
               (fstr str_container cid) (fstr str_container secret) in
  net p req = Some r ->
  status_code r = 200 ->
  json_loads (text r) = Some (VDict body) ->
  body !! "access_token" = Some token ->
  get_auth_headers json_loads str_container conn p
  = (Return {[ "Authorization" := token; "ST-App-Key" := key ]},
     after_request p req).
Proof.
  intros Hcid Hsecret Hroot Hkey. lazy zeta. intros Hnet Hstatus Hjson Htoken.
  pose proof (get_auth_headers_run conn auth_root cid secret p
                Hcid Hsecret Hroot) as Hrun.
  lazy zeta in Hrun. rewrite Hrun, Hnet, Hstatus, Hjson.
  unfold assemble_headers. rewrite Htoken, Hkey. reflexivity.
Qed.

(** X17: a status that is neither 200 nor from 400 to 599 (201, 204, 304,
    ...) is reported on standard output as an error, and then handled
    like a 200: the body is decoded and the headers are returned. *)
Theorem other_status_reported_and_used (conn : dict)
    (auth_root cid secret key token : value) (p : process) (r : response)
    (body : dict) :
  conn !! "SERVICETITAN_CLIENT_ID" = Some cid ->
  conn !! "SERVICETITAN_CLIENT_SECRET" = Some secret ->
  conn !! "auth_root" = Some auth_root ->
  conn !! "SERVICETITAN_APP_KEY" = Some key ->
  let req := token_request (fstr str_container auth_root)
               (fstr str_container cid) (fstr str_container secret) in
  net p req = Some r ->
  status_code r <> 200 ->
  status_code r < 400 \/ 600 <= status_code r ->
  json_loads (text r) = Some (VDict body) ->
  body !! "access_token" = Some token ->
  fst (get_auth_headers json_loads str_container conn p)
  = Return {[ "Authorization" := token; "ST-App-Key" := key ]}
  /\ stdout (snd (get_auth_headers json_loads str_container conn p))
     = (stdout p ++ [("Error fetching auth token: " ++ text r)%string])%list.
Proof.
  intros Hcid Hsecret Hroot Hkey. lazy zeta.
  intros Hnet Hne Hstatus Hjson Htoken.
  pose proof (get_auth_headers_run conn auth_root cid secret p
                Hcid Hsecret Hroot) as Hrun.
  lazy zeta in Hrun. rewrite Hrun, Hnet.
  replace (status_code r =? 200) with false by lia.
  replace ((400 <=? status_code r) && (status_code r <? 600)) with false
    by (symmetry; apply andb_false_iff; lia).
  rewrite Hjson. unfold assemble_headers. rewrite Htoken, Hkey.
  split; reflexivity.
Qed.

(** X18: resolver and header assembler together, explicit arguments: the
    token is requested at the auth root the environment selector picks,
    with the client id and secret that were passed, and the headers carry
    the app key that was passed. *)
Theorem explicit_call_headers (a : connect_args) (p : process)
    (env key cid secret : string) (r : response) (body : dict)
    (token : value) :
  explicit_branch a = true ->
  api_environment a = Some env ->
  app_key a = Some key ->
  client_id a = Some cid ->
  client_secret a = Some secret ->
  let req := token_request (get_auth_root_url (VStr env)) cid secret in
  net p req = Some r ->
  status_code r = 200 ->
  json_loads (text r) = Some (VDict body) ->
  body !! "access_token" = Some token ->
  exists cfg,
    servicepytan_connect json_loads a p = (Return cfg, p) /\
    get_auth_headers json_loads str_container cfg p
    = (Return {[ "Authorization" := token; "ST-App-Key" := VStr key ]},
       after_request p req).
Proof.
  intros Hb Henv Hkey Hcid Hsecret. lazy zeta.
  intros Hnet Hstatus Hjson Htoken.
  exists (auth_config_object a).
  split; [apply connect_explicit, Hb|].
  pose proof (get_auth_headers_run (auth_config_object a)
                (VStr (get_auth_root_url (VStr env))) (VStr cid) (VStr secret) p)
    as Hrun.
  lazy zeta in Hrun. cbn [fstr] in Hrun. rewrite Hrun.
  - rewrite Hnet, Hstatus, Hjson. unfold assemble_headers. rewrite Htoken.
    rewrite (auth_config_object_var a "SERVICETITAN_APP_KEY") by in_keys.
    change (explicit_argument a "SERVICETITAN_APP_KEY") with (app_key a).
    rewrite Hkey. reflexivity.
  - rewrite (auth_config_object_var a "SERVICETITAN_CLIENT_ID") by in_keys.
    change (explicit_argument a "SERVICETITAN_CLIENT_ID") with (client_id a).
    rewrite Hcid. reflexivity.
  - rewrite (auth_config_object_var a "SERVICETITAN_CLIENT_SECRET") by in_keys.
    change (explicit_argument a "SERVICETITAN_CLIENT_SECRET")
      with (client_secret a).
    rewrite Hsecret. reflexivity.
  - rewrite auth_config_object_auth_root, Henv. reflexivity.
Qed.

(** X19: resolver and header assembler together, credentials missing: when
    the environment branch finds neither client id nor client secret, the
    config holds empty strings and the token request is sent all the
    same, with both fields empty. *)
Theorem empty_credentials_are_sent (a : connect_args) (p : process) :
  environment_branch a = true ->
  loaded_environ p !! "SERVICETITAN_CLIENT_ID" = None ->
  loaded_environ p !! "SERVICETITAN_CLIENT_SECRET" = None ->
  exists cfg p',
    servicepytan_connect json_loads a p = (Return cfg, p') /\
    sent (snd (get_auth_headers json_loads str_container cfg p'))
    = (sent p
       ++ [token_request (get_auth_root_url (of_arg (api_environment a)))
             "" ""])%list /\
    data (token_request (get_auth_root_url (of_arg (api_environment a))) "" "")
    = "grant_type=client_credentials&client_id=&client_secret=".
Proof.
  intros Hb Hcid Hsecret. eexists _, _.
  split; [apply (connect_environment json_loads a p Hb)|].
  split; [|reflexivity].
  match goal with
  | |- sent (snd (get_auth_headers _ _ ?cfg ?q)) = _ =>
      destruct (get_auth_headers_frame cfg
                  (VStr (get_auth_root_url (of_arg (api_environment a))))
                  (VStr "") (VStr "") q) as [_ Hsent]
  end.
  - rewrite lookup_filled_var by in_keys.
    unfold environ_or_empty. rewrite Hcid. reflexivity.
  - rewrite lookup_filled_var by in_keys.
    unfold environ_or_empty. rewrite Hsecret. reflexivity.
  - apply lookup_filled_auth_root.
  - lazy zeta in Hsent. rewrite Hsent. reflexivity.
Qed.

End Fetcher.

(** ** The further properties on concrete calls *)

(** The config-file branch on a file that holds a JSON object. *)
Lemma connect_file_dict (json_loads : string -> option value)
    (a : connect_args) (p : process) (content : string) (creds : dict) :
  truthy (config_file a) = true ->
  fs p (default "" (config_file a)) = Some content ->
  json_loads content = Some (VDict creds) ->
  servicepytan_connect json_loads a p
  = (Return (foldl (fun m v => <[v := file_or_empty creds v]> m)
               (auth_config_object a) AUTH_VARIABLES),
     mk_process (fs p) (net p) (dotenv p) (environ p)
       (stdout p ++ ["Setting auth config from file..."]) (sent p)).
Proof.
  intros Hf Hfs Hjson.
  pose proof (connect_file json_loads a p Hf) as Hrun. lazy zeta in Hrun.
  rewrite Hfs, Hjson in Hrun. exact Hrun.
Qed.

Lemma file_branch_returns_iff_witness :
  truthy (config_file (call_with_file "typed.json")) = true /\
  (exists cfg,
     fst (servicepytan_connect more_json_loads (call_with_file "typed.json")
            busy_process) = Return cfg) /\
  ~ (exists cfg,
       fst (servicepytan_connect more_json_loads (call_with_file "list.json")
              busy_process) = Return cfg).
Proof.
  split; [reflexivity|]. split.
  - apply (file_branch_returns_iff more_json_loads
             (call_with_file "typed.json") busy_process eq_refl).
    eexists typed_json, _. split; vm_compute; reflexivity.
  - intros Hret.
    apply (file_branch_returns_iff more_json_loads
             (call_with_file "list.json") busy_process eq_refl) in Hret.
    destruct Hret as (content & creds & Hfs & Hjson).
    vm_compute in Hfs. injection Hfs as <-.
    vm_compute in Hjson. discriminate Hjson.
Defined.

Lemma file_branch_errors_witness :
  fst (servicepytan_connect more_json_loads (call_with_file "missing.json")
         busy_process) = Raise (OSError "missing.json") /\
  fst (servicepytan_connect more_json_loads (call_with_file "broken.json")
         busy_process) = Raise (JSONDecodeError broken_json) /\
  fst (servicepytan_connect more_json_loads (call_with_file "list.json")
         busy_process) = Raise (AttributeError "get").
Proof.
  split; [|split].
  - apply (file_branch_errors more_json_loads (call_with_file "missing.json")
             busy_process eq_refl).
    vm_compute. reflexivity.
  - apply (file_branch_errors more_json_loads (call_with_file "broken.json")
             busy_process eq_refl); vm_compute; reflexivity.
  - apply (file_branch_errors more_json_loads (call_with_file "list.json")
             busy_process eq_refl) with (content := list_json)
                                        (v := VList [VInt 1; VInt 2]);
      [vm_compute; reflexivity|vm_compute; reflexivity|discriminate].
Defined.

Lemma file_branch_ignores_credentials_witness :
  truthy (config_file file_call) = true /\
  servicepytan_connect demo_json_loads file_call quiet_process
  = servicepytan_connect demo_json_loads bare_file_call quiet_process.
Proof.
  split; [reflexivity|].
  apply (file_branch_ignores_credentials demo_json_loads file_call
           bare_file_call quiet_process); reflexivity.
Defined.

Lemma environment_branch_ignores_credentials_witness :
  environment_branch partial_call = true /\
  servicepytan_connect demo_json_loads partial_call env_process
  = servicepytan_connect demo_json_loads (default_args (Some "production"))
      env_process.
Proof.
  split; [reflexivity|].
  apply (environment_branch_ignores_credentials demo_json_loads partial_call
           (default_args (Some "production")) env_process); reflexivity.
Defined.

Lemma file_values_verbatim_witness :
  exists cfg p',
    servicepytan_connect more_json_loads (call_with_file "typed.json")
      busy_process = (Return cfg, p') /\
    cfg !! "SERVICETITAN_TENANT_ID" = Some (VInt 42) /\
    cfg !! "SERVICETITAN_APP_KEY" = Some VNone /\
    cfg !! "SERVICETITAN_CLIENT_ID" = Some (VStr "").
Proof.
  destruct (file_values_verbatim more_json_loads (call_with_file "typed.json")
              busy_process typed_json
              (<["SERVICETITAN_TENANT_ID" := VInt 42]>
                 (<["SERVICETITAN_APP_KEY" := VNone]> {[ "note" := VStr "x" ]}))
              eq_refl ltac:(vm_compute; reflexivity)
              ltac:(vm_compute; reflexivity))
    as (cfg & p' & Hrun & Hvars).
  exists cfg, p'. split; [exact Hrun|].
  split; [apply (Hvars "SERVICETITAN_TENANT_ID" ltac:(in_keys));
          vm_compute; reflexivity|].
  split; [apply (Hvars "SERVICETITAN_APP_KEY" ltac:(in_keys));
          vm_compute; reflexivity|].
  apply (Hvars "SERVICETITAN_CLIENT_ID" ltac:(in_keys)).
  vm_compute. reflexivity.
Defined.

Lemma config_keys_exact_witness :
  exists cfg p',
    servicepytan_connect more_json_loads (call_with_file "typed.json")
      busy_process = (Return cfg, p') /\
    cfg !! "note" = None /\
    is_Some (cfg !! "SERVICETITAN_APP_ID").
Proof.
  pose proof (connect_file_dict more_json_loads (call_with_file "typed.json")
                busy_process typed_json _ eq_refl
                ltac:(vm_compute; reflexivity) ltac:(vm_compute; reflexivity))
    as Hrun.
  eexists _, _. split; [exact Hrun|].
  pose proof (config_keys_exact more_json_loads _ _ _ _ Hrun) as Hkeys.
  split.
  - apply eq_None_not_Some. intros Hnote. apply Hkeys in Hnote.
    revert Hnote. apply (bool_decide_unpack _). vm_compute. exact I.
  - apply Hkeys. in_keys.
Defined.

Lemma urls_go_together_witness :
  exists cfg,
    servicepytan_connect demo_json_loads explicit_call quiet_process
      = (Return cfg, quiet_process) /\
    cfg !! "auth_root" = Some (VStr "https://auth.servicetitan.io") /\
    cfg !! "api_root" = Some (VStr "https://api.servicetitan.io").
Proof.
  pose proof (connect_explicit demo_json_loads explicit_call quiet_process
                eq_refl) as Hrun.
  eexists. split; [exact Hrun|].
  destruct (urls_go_together demo_json_loads _ _ _ _ Hrun)
    as [(_ & Hauth & Hapi)|(Hne & _)].
  - split; [exact Hauth|exact Hapi].
  - exfalso. apply Hne. reflexivity.
Defined.

Lemma environment_before_dotenv_witness :
  environment_branch (default_args (Some "production")) = true /\
  exists cfg p',
    servicepytan_connect demo_json_loads (default_args (Some "production"))
      busy_process = (Return cfg, p') /\
    cfg !! "SERVICETITAN_APP_KEY" = Some (VStr "key-from-env") /\
    cfg !! "SERVICETITAN_CLIENT_ID" = Some (VStr "cid-from-dotenv") /\
    environ p' !! "SERVICETITAN_CLIENT_ID" = Some "cid-from-dotenv".
Proof.
  split; [reflexivity|].
  destruct (environment_before_dotenv demo_json_loads
              (default_args (Some "production")) busy_process eq_refl)
    as (cfg & p' & Hrun & _ & Hvars).
  exists cfg, p'. split; [exact Hrun|].
  destruct (Hvars "SERVICETITAN_APP_KEY" ltac:(in_keys)) as [Henv _].
  destruct (Hvars "SERVICETITAN_CLIENT_ID" ltac:(in_keys)) as [_ Hdot].
  split; [apply (Henv "key-from-env"); vm_compute; reflexivity|].
  split; apply (Hdot "cid-from-dotenv"); vm_compute; reflexivity.
Defined.

Lemma resolver_sends_nothing_witness :
  environment_branch file_call = false /\
  sent (snd (servicepytan_connect demo_json_loads file_call quiet_process))
    = sent quiet_process /\
  environ (snd (servicepytan_connect demo_json_loads file_call quiet_process))
    = environ quiet_process.
Proof.
  split; [reflexivity|].
  destruct (resolver_sends_nothing demo_json_loads file_call quiet_process)
    as [Hsent Henv].
  split; [exact Hsent|apply Henv; reflexivity].
Defined.

Lemma token_keys_read_first_witness :
  secretless_conn !! "SERVICETITAN_CLIENT_SECRET" = None /\
  get_auth_headers demo_json_loads demo_str_container secretless_conn
    quiet_process
  = (Raise (KeyError "SERVICETITAN_CLIENT_SECRET"), quiet_process).
Proof.
  split; [reflexivity|].
  apply (token_keys_read_first demo_json_loads demo_str_container
           secretless_conn quiet_process).
  - eexists. reflexivity.
  - reflexivity.
Defined.

Lemma headers_fetch_every_time_witness :
  let once := snd (get_auth_headers demo_json_loads demo_str_container
                     demo_conn denied_process) in
  let twice := snd (get_auth_headers demo_json_loads demo_str_container
                      demo_conn once) in
  sent once = [token_request "https://auth.servicetitan.io" "cid" "secret"] /\
  sent twice = [token_request "https://auth.servicetitan.io" "cid" "secret";
                token_request "https://auth.servicetitan.io" "cid" "secret"].
Proof.
  lazy zeta.
  destruct (headers_fetch_every_time demo_json_loads demo_str_container
              demo_conn (VStr "https://auth.servicetitan.io") (VStr "cid")
              (VStr "secret") denied_process eq_refl eq_refl eq_refl)
    as (Honce & Htwice & _).
  split; [exact Honce|exact Htwice].
Defined.

Lemma app_key_missing_after_fetch_witness :
  keyless_conn !! "SERVICETITAN_APP_KEY" = None /\
  get_auth_headers demo_json_loads demo_str_container keyless_conn
    quiet_process
  = (Raise (KeyError "SERVICETITAN_APP_KEY"),
     after_request quiet_process
       (token_request "https://auth.servicetitan.io" "cid" "secret")).
Proof.
  split; [reflexivity|].
  apply (app_key_missing_after_fetch demo_json_loads demo_str_container
           keyless_conn (VStr "https://auth.servicetitan.io") (VStr "cid")
           (VStr "secret") (VStr "abc123") quiet_process
           (mk_response 200 token_json)
           {[ "access_token" := VStr "abc123" ]}); reflexivity.
Defined.

Lemma headers_http_error_witness :
  400 <= status_code (mk_response 401 "invalid_client") < 600 /\
  fst (get_auth_headers demo_json_loads demo_str_container demo_conn
         denied_process) = Raise (HTTPError 401) /\
  stdout (snd (get_auth_headers demo_json_loads demo_str_container demo_conn
                 denied_process))
  = ["Error fetching auth token: invalid_client"].
Proof.
  assert (Hstatus : 400 <= status_code (mk_response 401 "invalid_client") < 600)
    by (simpl; lia).
  split; [exact Hstatus|].
  rewrite (headers_http_error demo_json_loads demo_str_container demo_conn
             (VStr "https://auth.servicetitan.io") (VStr "cid") (VStr "secret")
             denied_process (mk_response 401 "invalid_client")
             eq_refl eq_refl eq_refl eq_refl Hstatus).
  split; reflexivity.
Defined.

Lemma unusable_body_witness :
  status_code (mk_response 200 list_json) = 200 /\
  fst (get_auth_headers more_json_loads demo_str_container demo_conn
         (files_process (mk_response 200 list_json))) = Raise TypeError /\
  fst (get_auth_headers more_json_loads demo_str_container demo_conn
         (files_process (mk_response 200 broken_json)))
  = Raise (JSONDecodeError broken_json).
Proof.
  split; [reflexivity|].
  destruct (unusable_body more_json_loads demo_str_container demo_conn
              (VStr "https://auth.servicetitan.io") (VStr "cid") (VStr "secret")
              (files_process (mk_response 200 list_json))
              (mk_response 200 list_json) eq_refl eq_refl eq_refl eq_refl
              eq_refl) as [_ Htype].
  destruct (unusable_body more_json_loads demo_str_container demo_conn
              (VStr "https://auth.servicetitan.io") (VStr "cid") (VStr "secret")
              (files_process (mk_response 200 broken_json))
              (mk_response 200 broken_json) eq_refl eq_refl eq_refl eq_refl
              eq_refl) as [Hdecode _].
  split.
  - rewrite (Htype (VList [VInt 1; VInt 2]) eq_refl); [reflexivity|discriminate].
  - rewrite (Hdecode eq_refl). reflexivity.
Defined.

Lemma headers_any_token_witness :
  status_code (mk_response 200 null_token_json) = 200 /\
  fst (get_auth_headers more_json_loads demo_str_container demo_conn
         busy_process)
  = Return {[ "Authorization" := VNone; "ST-App-Key" := VStr "key" ]}.
Proof.
  split; [reflexivity|].
  rewrite (headers_any_token more_json_loads demo_str_container demo_conn
             (VStr "https://auth.servicetitan.io") (VStr "cid") (VStr "secret")
             (VStr "key") VNone busy_process (mk_response 200 null_token_json)
             {[ "access_token" := VNone ]}
             eq_refl eq_refl eq_refl eq_refl eq_refl eq_refl eq_refl eq_refl).
  reflexivity.
Defined.

Lemma other_status_reported_and_used_witness :
  status_code (mk_response 201 token_json) <> 200 /\
  fst (get_auth_headers demo_json_loads demo_str_container demo_conn
         (demo_process (mk_response 201 token_json)))
  = Return {[ "Authorization" := VStr "abc123"; "ST-App-Key" := VStr "key" ]} /\
  stdout (snd (get_auth_headers demo_json_loads demo_str_container demo_conn
                 (demo_process (mk_response 201 token_json))))
  = [("Error fetching auth token: " ++ token_json)%string].
Proof.
  assert (Hne : status_code (mk_response 201 token_json) <> 200)
    by (simpl; lia).
  split; [exact Hne|].
  apply (other_status_reported_and_used demo_json_loads demo_str_container
           demo_conn (VStr "https://auth.servicetitan.io") (VStr "cid")
           (VStr "secret") (VStr "key") (VStr "abc123")
           (demo_process (mk_response 201 token_json))
           (mk_response 201 token_json) {[ "access_token" := VStr "abc123" ]}
           eq_refl eq_refl eq_refl eq_refl eq_refl Hne
           ltac:(left; simpl; lia) eq_refl eq_refl).
Defined.

Lemma explicit_call_headers_witness :
  explicit_branch explicit_call = true /\
  exists cfg,
    servicepytan_connect demo_json_loads explicit_call quiet_process
      = (Return cfg, quiet_process) /\
    get_auth_headers demo_json_loads demo_str_container cfg quiet_process
    = (Return {[ "Authorization" := VStr "abc123"; "ST-App-Key" := VStr "key" ]},
       after_request quiet_process
         (token_request "https://auth.servicetitan.io" "cid" "secret")).
Proof.
  split; [reflexivity|].
  apply (explicit_call_headers demo_json_loads demo_str_container explicit_call
           quiet_process "production" "key" "cid" "secret"
           (mk_response 200 token_json) {[ "access_token" := VStr "abc123" ]}
           (VStr "abc123")); reflexivity.
Defined.

Lemma empty_credentials_are_sent_witness :
  environment_branch partial_call = true /\
  exists cfg p',
    servicepytan_connect demo_json_loads partial_call env_process
      = (Return cfg, p') /\
    sent (snd (get_auth_headers demo_json_loads demo_str_container cfg p'))
    = [token_request "https://auth.servicetitan.io" "" ""].
Proof.
  split; [reflexivity|].
  destruct (empty_credentials_are_sent demo_json_loads demo_str_container
              partial_call env_process eq_refl
              ltac:(vm_compute; reflexivity) ltac:(vm_compute; reflexivity))
    as (cfg & p' & Hrun & Hsent & _).
  exists cfg, p'. split; [exact Hrun|exact Hsent].
Defined.

(** ** The body of the token request and the form encoding *)

Lemma quote_plus_unreserved (s : string) :
  all_unreserved s = true -> quote_plus s = s.
Proof.
  induction s as [|c rest IH]; [reflexivity|].
  cbn [all_unreserved quote_plus]. intros [Hc Hrest]%andb_prop.
  rewrite Hc, (IH Hrest). reflexivity.
Qed.

(** A client id and a client secret made of letters, digits and [_.-~]
    give a body that is the form encoding of the three fields. *)
Lemma plain_credentials_encoded (auth_root cid secret : string) :
  all_unreserved cid = true ->
  all_unreserved secret = true ->
  data (token_request auth_root cid secret)
  = urlencode (grant_fields cid secret).
Proof.
  intros Hcid Hsecret. unfold token_request, grant_fields.
  cbn [data urlencode].
  rewrite (quote_plus_unreserved cid Hcid).
  rewrite (quote_plus_unreserved secret Hsecret).
  reflexivity.
Qed.

(** C8: the client secret [p&grant_type=password] is written into the
    body as it is.  One POST goes out, to [{auth_root}/connect/token] and
    with the form content type, but its body is not the form encoding of
    the three fields, which escapes [&] and [=] in the secret: it is the
    form encoding of four fields, the last one a second [grant_type]. *)
Theorem raw_secret_adds_a_field :
  let run := request_auth_token demo_json_loads demo_str_container
               (VStr "https://auth.servicetitan.io") (VStr "cid")
               (VStr "p&grant_type=password") quiet_process in
  exists req,
    sent (snd run) = [req]
    /\ method req = "POST"
    /\ url req = "https://auth.servicetitan.io/connect/token"
    /\ headers req = [("Content-Type", "application/x-www-form-urlencoded")]
    /\ data req = "grant_type=client_credentials&client_id=cid&client_secret=p&grant_type=password"
    /\ urlencode (grant_fields "cid" "p&grant_type=password")
       = "grant_type=client_credentials&client_id=cid&client_secret=p%26grant_type%3Dpassword"
    /\ data req <> urlencode (grant_fields "cid" "p&grant_type=password")
    /\ data req = urlencode [ ("grant_type", "client_credentials");
                              ("client_id", "cid");
                              ("client_secret", "p");
                              ("grant_type", "password") ].
Proof.
  lazy zeta. eexists. split; [vm_compute; reflexivity|].
  repeat (split; [vm_compute; reflexivity|]).
  split; [|vm_compute; reflexivity].
  apply String.eqb_neq. vm_compute. reflexivity.
Qed.
